(** * XMLQuiz: a shallow embedding of [app.py]

    The Flask application fills an XML quiz template and a metadata-block
    template with the contents of an uploaded JSON document, one XML file
    per quiz, and returns the files in a zip archive.

    Modelling choices:
    - a Python [str] is a sequence of Unicode code points, here [list Z];
      [s2l] turns an ASCII literal into one;
    - [json] is the Python value returned by [json.load]; JSON numbers are
      modelled as integers, and a [JObj] has pairwise distinct keys (a
      Python dict);
    - Python exceptions are the constructors of [exn], and a computation
      that may raise is in the result monad [res];
    - the file system is a function from paths to read results, the
      upload is what [json.load] returned (a value or a parser error), and
      the zip archive is its list of entries (name, text). *)

From Stdlib Require Import String Ascii List ZArith Bool Lia Arith.
Set Warnings "-register-all".
Set Warnings "-abstract-large-number".
Import ListNotations.

(** ** Python strings *)

Definition pystr := list Z.

Definition s2l (s : string) : pystr :=
  map (fun a => Z.of_nat (nat_of_ascii a)) (list_ascii_of_string s).

(** [str(n)] for a non-negative integer: decimal digits, most significant
    first. The fuel [S n] exceeds the number of digits. *)
Fixpoint dec_aux (fuel n : nat) (acc : pystr) : pystr :=
  match fuel with
  | O => acc
  | S f =>
      let acc' := (48 + Z.of_nat (n mod 10))%Z :: acc in
      if n <? 10 then acc' else dec_aux f (n / 10) acc'
  end.

Definition str_nat (n : nat) : pystr := dec_aux (S n) n [].

Definition str_Z (z : Z) : pystr :=
  if (z <? 0)%Z then 45%Z :: str_nat (Z.to_nat (- z)) else str_nat (Z.to_nat z).

(** [s.startswith(p)] *)
Fixpoint prefixb (p s : pystr) : bool :=
  match p, s with
  | [], _ => true
  | _ :: _, [] => false
  | a :: p', b :: s' => (a =? b)%Z && prefixb p' s'
  end.

(** [p in s] *)
Fixpoint occursb (p s : pystr) : bool :=
  prefixb p s || match s with [] => false | _ :: s' => occursb p s' end.

(** [s.replace(old, new)] for a non-empty [old]: a left-to-right scan for
    non-overlapping occurrences; [skip] counts the characters of the
    current match that remain to be dropped. The inserted text is never
    scanned. *)
Section Replace.
Variables (old new : pystr).

Fixpoint repl_scan (skip : nat) (s : pystr) : pystr :=
  match s with
  | [] => []
  | c :: s' =>
      match skip with
      | S k => repl_scan k s'
      | O => if prefixb old s then new ++ repl_scan (pred (List.length old)) s'
             else c :: repl_scan O s'
      end
  end.

(** [s.replace("", new)] inserts [new] before every character and at the end. *)
Fixpoint interleave (s : pystr) : pystr :=
  match s with
  | [] => new
  | c :: s' => new ++ c :: interleave s'
  end.

End Replace.

Definition py_replace (s old new : pystr) : pystr :=
  match old with
  | [] => interleave new s
  | _ :: _ => repl_scan old new O s
  end.

(** [str.isspace] on one code point (the characters [str.strip()] removes). *)
Definition py_isspace (c : Z) : bool :=
  (((9 <=? c) && (c <=? 13)) || ((28 <=? c) && (c <=? 32)) || (c =? 133)
   || (c =? 160) || (c =? 5760) || ((8192 <=? c) && (c <=? 8202))
   || (c =? 8232) || (c =? 8233) || (c =? 8239) || (c =? 8287)
   || (c =? 12288))%Z.

Fixpoint lstrip (s : pystr) : pystr :=
  match s with
  | [] => []
  | c :: s' => if py_isspace c then lstrip s' else s
  end.

(** [s.strip()] *)
Definition strip (s : pystr) : pystr := rev (lstrip (rev (lstrip s))).

(** ** Python values read from JSON *)

Inductive json : Type :=
| JNull
| JBool (b : bool)
| JNum (z : Z)
| JStr (s : pystr)
| JArr (l : list json)
| JObj (kvs : list (pystr * json)).

Inductive exn : Type :=
| KeyError (k : pystr)
| TypeError
| AttributeError
| ValueError
| UnicodeEncodeError
| UnicodeDecodeError
| OSError.

Inductive res (A : Type) : Type :=
| Ok (a : A)
| Err (e : exn).
Arguments Ok {A} a.
Arguments Err {A} e.

Definition bind {A B} (m : res A) (f : A -> res B) : res B :=
  match m with Ok a => f a | Err e => Err e end.

Notation "'let*' x ':=' m 'in' k" := (bind m (fun x => k))
  (at level 200, x name, m at level 100, k at level 200).

Fixpoint pystr_eqb (a b : pystr) : bool :=
  match a, b with
  | [], [] => true
  | x :: a', y :: b' => (x =? y)%Z && pystr_eqb a' b'
  | _, _ => false
  end.

Fixpoint lookup (k : pystr) (kvs : list (pystr * json)) : option json :=
  match kvs with
  | [] => None
  | (k', v) :: kvs' => if pystr_eqb k k' then Some v else lookup k kvs'
  end.

(** [v[k]] for a string key. *)
Definition py_getitem (v : json) (k : pystr) : res json :=
  match v with
  | JObj kvs => match lookup k kvs with Some x => Ok x | None => Err (KeyError k) end
  | _ => Err TypeError
  end.

(** The items [for x in v] visits. *)
Definition py_iter (v : json) : res (list json) :=
  match v with
  | JArr l => Ok l
  | JStr s => Ok (map (fun c => JStr [c]) s)
  | JObj kvs => Ok (map (fun kv => JStr (fst kv)) kvs)
  | _ => Err TypeError
  end.

(** The [new] argument of [str.replace] must be a [str]. *)
Definition as_str (v : json) : res pystr :=
  match v with JStr s => Ok s | _ => Err TypeError end.

(** [(i - 1) == v] for the int [i - 1] and a JSON value [v]
    ([True == 1] and [False == 0] in Python). *)
Definition py_eq_int (v : json) (n : Z) : bool :=
  match v with
  | JNum z => (z =? n)%Z
  | JBool b => ((if b then 1 else 0) =? n)%Z
  | _ => false
  end.

(** [chr(n)] *)
Definition py_chr (n : nat) : res Z :=
  if (Z.of_nat n <=? 1114111)%Z then Ok (Z.of_nat n) else Err ValueError.

Definition hex_digit (d : Z) : Z := if (d <? 10)%Z then (48 + d)%Z else (87 + d)%Z.

(** [repr] of a [str]: the quote Python picks and its escapes (code points
    above 127 are written as they are). *)
Definition str_repr (s : pystr) : pystr :=
  let q := if existsb (Z.eqb 39) s && negb (existsb (Z.eqb 34) s) then 34%Z else 39%Z in
  let esc c :=
    if (c =? 92)%Z then [92; 92]%Z
    else if (c =? q)%Z then [92; q]%Z
    else if (c =? 10)%Z then [92; 110]%Z
    else if (c =? 13)%Z then [92; 114]%Z
    else if (c =? 9)%Z then [92; 116]%Z
    else if (c <? 32)%Z || (c =? 127)%Z
    then [92; 120; hex_digit (c / 16); hex_digit (c mod 16)]%Z
    else [c] in
  q :: concat (map esc s) ++ [q].

Fixpoint join (sep : pystr) (l : list pystr) : pystr :=
  match l with
  | [] => []
  | [x] => x
  | x :: l' => x ++ sep ++ join sep l'
  end.

Fixpoint py_repr (v : json) : pystr :=
  match v with
  | JNull => s2l "None"
  | JBool b => if b then s2l "True" else s2l "False"
  | JNum z => str_Z z
  | JStr s => str_repr s
  | JArr l => s2l "[" ++ join (s2l ", ") (map py_repr l) ++ s2l "]"
  | JObj kvs =>
      s2l "{" ++ join (s2l ", ")
        (map (fun kv => str_repr (fst kv) ++ s2l ": " ++ py_repr (snd kv)) kvs)
      ++ s2l "}"
  end.

(** [str(v)] *)
Definition py_str (v : json) : pystr :=
  match v with
  | JStr s => s
  | _ => py_repr v
  end.

(** ** [markRight] (app.py, lines 14-24) *)

(** [quiz_content.replace(f"{{{{Option_{qnum}{i}}}}}", correct_value)] for
    [i] in [range(1, 5)]. *)
Definition markRight (quiz_content : pystr) (qnum : nat) (optionNo : json) : pystr :=
  fold_left
    (fun quiz_content i =>
       let correct_value :=
         if py_eq_int optionNo (Z.of_nat i - 1) then s2l "true" else s2l "false" in
       let placeholder := s2l "{{Option_" ++ str_nat qnum ++ str_nat i ++ s2l "}}" in
       py_replace quiz_content placeholder correct_value)
    [1; 2; 3; 4] quiz_content.

(** ** The template filler (the body of the loop of [generate_xmls]) *)

(** [for anum, answer_text in enumerate(q["ANSWERS"], start=1)] (lines 79-81) *)
Fixpoint fill_answers (qnum anum : nat) (answers : list json) (quiz_content : pystr)
  : res pystr :=
  match answers with
  | [] => Ok quiz_content
  | answer :: rest =>
      let* letter := py_chr (64 + anum) in
      let placeholder := s2l "{{ANSWER_" ++ str_nat qnum ++ [letter] ++ s2l "}}" in
      let* answer_text := as_str answer in
      fill_answers qnum (S anum) rest (py_replace quiz_content placeholder answer_text)
  end.

(** [for qnum, q in enumerate(quiz["QUESTIONS"], start=1)] (lines 72-84) *)
Fixpoint fill_questions (qnum : nat) (questions : list json) (quiz_content : pystr)
  : res pystr :=
  match questions with
  | [] => Ok quiz_content
  | q :: rest =>
      let* text := py_getitem q (s2l "QUESTION") in
      let* text := as_str text in
      let quiz_content :=
        py_replace quiz_content (s2l "{{QUESTION_" ++ str_nat qnum ++ s2l "}}") text in
      let* answers := py_getitem q (s2l "ANSWERS") in
      let* answers := py_iter answers in
      let* quiz_content := fill_answers qnum 1 answers quiz_content in
      let* correct := py_getitem q (s2l "CORRECT") in
      fill_questions (S qnum) rest (markRight quiz_content qnum correct)
  end.

(** Lines 66-84: the filled quiz template. *)
Definition fill_content (xml_template : pystr) (quiz : json) : res pystr :=
  let quiz_content := xml_template in
  let* title := py_getitem quiz (s2l "TITLE") in
  let* title := as_str title in
  let quiz_content := py_replace quiz_content (s2l "{{TITLE}}") title in
  let* questions := py_getitem quiz (s2l "QUESTIONS") in
  let* questions := py_iter questions in
  fill_questions 1 questions quiz_content.

(** Lines 66-90: [full_xml] for one quiz. *)
Definition fill_quiz (xml_template meta_block_template : pystr) (quiz : json)
  : res pystr :=
  let* quiz_content := fill_content xml_template quiz in
  let* id := py_getitem quiz (s2l "id") in
  let mb_filled := py_replace meta_block_template (s2l "{{ID}}") (py_str id) in
  Ok (quiz_content ++ mb_filled).

(** ** The zip archive *)

Definition entry := (pystr * pystr)%type.

Definition is_surrogate (c : Z) : bool := ((55296 <=? c) && (c <=? 57343))%Z.

(** [ZipInfo] ends a file name at its first NUL character. *)
Fixpoint until_nul (s : pystr) : pystr :=
  match s with
  | [] => []
  | c :: s' => if (c =? 0)%Z then [] else c :: until_nul s'
  end.

(** [zipf.writestr(filename, data)]: [data] and the name are encoded as
    UTF-8 (a lone surrogate cannot be), the name is cut at a NUL, and the
    entry is appended to the archive. *)
Definition writestr (zipf : list entry) (filename data : pystr) : res (list entry) :=
  if existsb is_surrogate data || existsb is_surrogate (until_nul filename)
  then Err UnicodeEncodeError
  else Ok (zipf ++ [(until_nul filename, data)]).

(** [for idx, quiz in enumerate(..., start=1)] (lines 64-94), threading the
    archive. *)
Fixpoint pack (base_name xml_template meta_block_template : pystr) (idx : nat)
  (quizzes : list json) (zipf : list entry) : res (list entry) :=
  match quizzes with
  | [] => Ok zipf
  | quiz :: rest =>
      let* full_xml := fill_quiz xml_template meta_block_template quiz in
      let filename := base_name ++ s2l "_" ++ str_nat idx ++ s2l ".xml" in
      let* zipf := writestr zipf filename full_xml in
      pack base_name xml_template meta_block_template (S idx) rest zipf
  end.

(** ** The request handler [generate_xmls] (lines 35-104) *)

(** What [json.load] returns on the uploaded part: a value, or the text of
    the exception it raised. *)
Inductive upload : Type :=
| UJson (data : json)
| UInvalid (err : pystr).

Record request : Type := {
  files_quiz_json : option upload;       (* request.files["quiz_json"] *)
  form_base_name : option pystr;         (* request.form.get("base_name") *)
  form_other : list (pystr * pystr)      (* the other form fields *)
}.

Record config : Type := {
  XML_TEMPLATE_PATH : pystr;
  META_BLOCK_PATH : pystr
}.

(** Reading a text file: its contents, [FileNotFoundError], or another
    exception: an [OSError] other than [FileNotFoundError], or
    [UnicodeDecodeError] for a file that is not UTF-8. *)
Inductive fread : Type :=
| FContent (s : pystr)
| FNotFound
| FError (e : exn).

Definition filesystem := pystr -> fread.

Inductive response : Type :=
| RFile (mimetype download_name : pystr) (archive : list entry)  (* send_file *)
| RAbort (code : Z) (description : pystr)                         (* abort *)
| RUncaught (e : exn).          (* an exception Flask turns into a 500 *)

Definition status (r : response) : Z :=
  match r with
  | RFile _ _ _ => 200
  | RAbort code _ => code
  | RUncaught _ => 500
  end.

(** [f"Template files not found: {e}"]: the text of the
    [FileNotFoundError] ends with [repr] of the file name. *)
Definition not_found_msg (path : pystr) : pystr :=
  s2l "Template files not found: [Errno 2] No such file or directory: "
  ++ str_repr path.

(** [request.form.get("base_name", "")] *)
Definition form_get_base_name (req : request) : pystr :=
  match form_base_name req with Some b => b | None => [] end.

(** [d.get(k, default)] *)
Definition py_dict_get (d : json) (k : pystr) (default : json) : res json :=
  match d with
  | JObj kvs => match lookup k kvs with Some v => Ok v | None => Ok default end
  | _ => Err AttributeError
  end.

(** Steps 4) and 5) (lines 60-104): the archive and the response. *)
Definition package_response (data : json)
  (base_name xml_template meta_block_template : pystr) : response :=
  let zipped :=
    let* quizzes := py_dict_get data (s2l "quizzes") (JArr []) in
    let* quizzes := py_iter quizzes in
    pack base_name xml_template meta_block_template 1 quizzes [] in
  match zipped with
  | Ok zipf => RFile (s2l "application/zip") (base_name ++ s2l "_xmls.zip") zipf
  | Err e => RUncaught e
  end.

Definition generate_xmls (cfg : config) (fs : filesystem) (req : request) : response :=
  match files_quiz_json req with
  | None => RAbort 400 (s2l "No JSON file part")
  | Some quiz_file =>
      let base_name := strip (form_get_base_name req) in
      match base_name with
      | [] => RAbort 400 (s2l "Base filename is required")
      | _ :: _ =>
          match quiz_file with
          | UInvalid e => RAbort 400 (s2l "Invalid JSON: " ++ e)
          | UJson data =>
              match fs (XML_TEMPLATE_PATH cfg) with
              | FNotFound => RAbort 500 (not_found_msg (XML_TEMPLATE_PATH cfg))
              | FError e => RUncaught e
              | FContent xml_template =>
                  match fs (META_BLOCK_PATH cfg) with
                  | FNotFound => RAbort 500 (not_found_msg (META_BLOCK_PATH cfg))
                  | FError e => RUncaught e
                  | FContent meta_block_template =>
                      package_response data base_name xml_template meta_block_template
                  end
              end
          end
      end
  end.

(** * Templates as placeholder tokens

    A template is read as a sequence of literal text and placeholders
    [{{name}}]. Literal text has no ['{'] (123) and a placeholder name has
    neither ['{'] nor ['}'] (125), so the placeholders of the template are
    exactly its [{{...}}] tokens. *)

Inductive tok : Type :=
| Lit (s : pystr)
| Ph (name : pystr).

Definition ph (name : pystr) : pystr := [123; 123]%Z ++ name ++ [125; 125]%Z.

Definition tok_str (t : tok) : pystr :=
  match t with Lit s => s | Ph n => ph n end.

Definition render (ts : list tok) : pystr := concat (map tok_str ts).

Definition no_open (s : pystr) : bool := forallb (fun c => negb (c =? 123)%Z) s.

Definition brace_free (s : pystr) : bool :=
  forallb (fun c => negb (c =? 123)%Z && negb (c =? 125)%Z) s.

Definition tok_ok (t : tok) : bool :=
  match t with Lit s => no_open s | Ph n => brace_free n end.

Definition wf (ts : list tok) : bool := forallb tok_ok ts.

(** One replacement [{{n}}] -> [r], read on tokens. *)
Definition tfill (n r : pystr) (t : tok) : tok :=
  match t with
  | Ph m => if pystr_eqb m n then Lit r else t
  | Lit _ => t
  end.

(** A sequence of replacements [(name, value)], applied in order to one
    working copy, as [generate_xmls] does. *)
Definition replace_chain (steps : list (pystr * pystr)) (s : pystr) : pystr :=
  fold_left (fun s nr => py_replace s (ph (fst nr)) (snd nr)) steps s.

Definition tok_chain (steps : list (pystr * pystr)) (t : tok) : tok :=
  fold_left (fun t nr => tfill (fst nr) (snd nr) t) steps t.

(** The first value given to [name] in [steps], as a token. *)
Fixpoint first_rep (name : pystr) (steps : list (pystr * pystr)) : tok :=
  match steps with
  | [] => Ph name
  | (n, r) :: steps' => if pystr_eqb n name then Lit r else first_rep name steps'
  end.

Definition steps_ok (steps : list (pystr * pystr)) : bool :=
  forallb (fun nr => brace_free (fst nr) && no_open (snd nr)) steps.

(** The placeholder names of the code. *)
Definition opt_name (qnum i : nat) : pystr := s2l "Option_" ++ str_nat qnum ++ str_nat i.

Definition answer_name (qnum anum : nat) : pystr :=
  s2l "ANSWER_" ++ str_nat qnum ++ [Z.of_nat (64 + anum)].

(** The replacements made for one question, in the order of the code. *)
Fixpoint answer_steps (qnum anum : nat) (answers : list pystr) : list (pystr * pystr) :=
  match answers with
  | [] => []
  | a :: rest =>
      (answer_name qnum anum, a)
        :: answer_steps qnum (S anum) rest
  end.

Definition option_steps (qnum : nat) (correct : json) : list (pystr * pystr) :=
  map (fun i => (opt_name qnum i,
                 if py_eq_int correct (Z.of_nat i - 1) then s2l "true" else s2l "false"))
      [1; 2; 3; 4].

(** A question as [fill_questions] reads it. *)
Record question : Type := {
  q_text : pystr;
  q_answers : list pystr;
  q_correct : json
}.

Definition question_steps (qnum : nat) (g : question) : list (pystr * pystr) :=
  (s2l "QUESTION_" ++ str_nat qnum, q_text g)
    :: answer_steps qnum 1 (q_answers g) ++ option_steps qnum (q_correct g).

Fixpoint questions_steps (qnum : nat) (gs : list question) : list (pystr * pystr) :=
  match gs with
  | [] => []
  | g :: gs' => question_steps qnum g ++ questions_steps (S qnum) gs'
  end.

(** The JSON value [q] has the fields of [g]. *)
Definition question_shape (q : json) (g : question) : Prop :=
  py_getitem q (s2l "QUESTION") = Ok (JStr (q_text g)) /\
  py_getitem q (s2l "ANSWERS") = Ok (JArr (map JStr (q_answers g))) /\
  py_getitem q (s2l "CORRECT") = Ok (q_correct g).

(** The quiz record [quiz] has title [title], questions [qs] read as [gs],
    and identifier [idv]. *)
Definition quiz_shape (quiz : json) (title : pystr) (qs : list json)
  (gs : list question) (idv : json) : Prop :=
  py_getitem quiz (s2l "TITLE") = Ok (JStr title) /\
  py_getitem quiz (s2l "QUESTIONS") = Ok (JArr qs) /\
  py_getitem quiz (s2l "id") = Ok idv /\
  Forall2 question_shape qs gs /\
  Forall (fun g => 64 + Z.of_nat (length (q_answers g)) <= 1114111)%Z gs.

(** The inserted quiz data contain no ['{']. *)
Definition data_no_open (title : pystr) (gs : list question) : Prop :=
  no_open title = true /\
  Forall (fun g => no_open (q_text g) = true /\ Forall (fun a => no_open a = true) (q_answers g)) gs.

Definition quiz_steps (title : pystr) (gs : list question) : list (pystr * pystr) :=
  (s2l "TITLE", title) :: questions_steps 1 gs.

(** ** The claims' readings of the placeholders *)

(** The Option marking as the spec states it: of the four placeholders
    [{{Option_<qnum>1}}] .. [{{Option_<qnum>4}}], the one at position [pos]
    becomes [true] and the three others [false]; every other token is kept. *)
Definition option_resolution (qnum pos : nat) (t : tok) : tok :=
  match t with
  | Ph m =>
      if pystr_eqb (opt_name qnum pos) m then Lit (s2l "true")
      else if existsb (fun i => pystr_eqb (opt_name qnum i) m) [1; 2; 3; 4]
           then Lit (s2l "false") else t
  | Lit _ => t
  end.


(** The JSON object [v] has no key [k]. *)
Definition lacks (v : json) (k : pystr) : Prop :=
  match v with JObj kvs => lookup k kvs = None | _ => False end.

(** A quiz record missing a required key: the record lacks [TITLE],
    [QUESTIONS] or [id], or one of its questions lacks [QUESTION],
    [ANSWERS] or [CORRECT]. *)
Definition missing_required (quiz : json) : Prop :=
  lacks quiz (s2l "TITLE") \/ lacks quiz (s2l "QUESTIONS") \/ lacks quiz (s2l "id") \/
  exists qsv qs q,
    py_getitem quiz (s2l "QUESTIONS") = Ok qsv /\ py_iter qsv = Ok qs /\ In q qs /\
    (lacks q (s2l "QUESTION") \/ lacks q (s2l "ANSWERS") \/ lacks q (s2l "CORRECT")).

(** ** Concrete inputs *)

(** A quiz whose answer A is the text [{{ANSWER_1B}}]. *)
Definition quiz_answer_rescanned : json :=
  JObj [(s2l "id", JNum 1); (s2l "TITLE", JStr (s2l "T"));
        (s2l "QUESTIONS",
         JArr [JObj [(s2l "QUESTION", JStr (s2l "Q"));
                     (s2l "ANSWERS", JArr [JStr (s2l "{{ANSWER_1B}}"); JStr (s2l "x")]);
                     (s2l "CORRECT", JNum 0)]])].

(** A quiz with one question of three answers. *)
Definition question_abc : question :=
  {| q_text := s2l "Q"; q_answers := [s2l "a"; s2l "b"; s2l "c"]; q_correct := JNum 0 |}.

Definition question_abc_json : json :=
  JObj [(s2l "QUESTION", JStr (s2l "Q"));
        (s2l "ANSWERS", JArr [JStr (s2l "a"); JStr (s2l "b"); JStr (s2l "c")]);
        (s2l "CORRECT", JNum 0)].

Definition quiz_abc : json :=
  JObj [(s2l "id", JNum 7); (s2l "TITLE", JStr (s2l "T"));
        (s2l "QUESTIONS", JArr [question_abc_json])].

Definition template_abc : list tok :=
  [Lit (s2l "<a>"); Ph (answer_name 1 1); Lit (s2l ","); Ph (answer_name 1 4)].

(** A quiz whose title is the plain text [TITLE]. *)
Definition quiz_plain_title : json :=
  JObj [(s2l "id", JNum 1); (s2l "TITLE", JStr (s2l "TITLE")); (s2l "QUESTIONS", JArr [])].

(** A quiz whose title is the text [{{QUESTION_1}}]. *)
Definition quiz_title_placeholder : json :=
  JObj [(s2l "id", JNum 1); (s2l "TITLE", JStr (s2l "{{QUESTION_1}}"));
        (s2l "QUESTIONS",
         JArr [JObj [(s2l "QUESTION", JStr (s2l "Q")); (s2l "ANSWERS", JArr []);
                     (s2l "CORRECT", JNum 0)]])].

(** The default configuration, a disk holding the two templates, and a
    POST request with a parsed upload and a [base_name]. *)
Definition default_config : config :=
  {| XML_TEMPLATE_PATH := s2l "xml_template.xml"; META_BLOCK_PATH := s2l "meta_block.xml" |}.

Definition fs_templates (xml_template meta_block_template : pystr) : filesystem :=
  fun path =>
    if pystr_eqb path (s2l "xml_template.xml") then FContent xml_template
    else if pystr_eqb path (s2l "meta_block.xml") then FContent meta_block_template
    else FNotFound.

Definition post (data : json) (base_name : pystr) : request :=
  {| files_quiz_json := Some (UJson data); form_base_name := Some base_name; form_other := [] |}.

(** An upload whose only quiz record has no [TITLE]. *)
Definition data_no_title : json :=
  JObj [(s2l "quizzes", JArr [JObj [(s2l "id", JNum 1); (s2l "QUESTIONS", JArr [])]])].

(** An upload with one quiz record. *)
Definition data_one : json := JObj [(s2l "quizzes", JArr [quiz_plain_title])].

(** The base name [a\0b]. *)
Definition base_nul : pystr := [97; 0; 98]%Z.

(** An upload with two quiz records. *)
Definition data_two : json := JObj [(s2l "quizzes", JArr [quiz_plain_title; quiz_plain_title])].

(** A quiz record whose only question has no [CORRECT]. *)
Definition question_no_correct : json :=
  JObj [(s2l "QUESTION", JStr (s2l "Q")); (s2l "ANSWERS", JArr [])].

Definition quiz_no_correct : json :=
  JObj [(s2l "id", JNum 1); (s2l "TITLE", JStr (s2l "T"));
        (s2l "QUESTIONS", JArr [question_no_correct])].

Definition data_no_correct : json := JObj [(s2l "quizzes", JArr [quiz_no_correct])].

(** * Lemmas *)

Arguments Z.eqb : simpl never.
Arguments Z.leb : simpl never.
Arguments Z.ltb : simpl never.

Lemma pystr_eqb_eq : forall a b, pystr_eqb a b = true <-> a = b.
Proof.
  induction a as [|x a IH]; destruct b as [|y b]; simpl; split; intro H;
    try discriminate; try reflexivity.
  - apply andb_true_iff in H as [H1 H2]. apply Z.eqb_eq in H1.
    apply IH in H2. subst. reflexivity.
  - injection H as -> ->. rewrite Z.eqb_refl. simpl. apply IH. reflexivity.
Qed.

Lemma pystr_eqb_refl : forall a, pystr_eqb a a = true.
Proof. intros. apply pystr_eqb_eq. reflexivity. Qed.

Lemma pystr_eqb_neq : forall a b, a <> b -> pystr_eqb a b = false.
Proof.
  intros a b H. destruct (pystr_eqb a b) eqn:E; [|reflexivity].
  apply pystr_eqb_eq in E. contradiction.
Qed.

Lemma pystr_eqb_sym : forall a b, pystr_eqb a b = pystr_eqb b a.
Proof.
  intros a b. destruct (pystr_eqb a b) eqn:E1, (pystr_eqb b a) eqn:E2; auto.
  - apply pystr_eqb_eq in E1. subst. rewrite pystr_eqb_refl in E2. discriminate.
  - apply pystr_eqb_eq in E2. subst. rewrite pystr_eqb_refl in E1. discriminate.
Qed.

Lemma render_cons : forall t ts, render (t :: ts) = tok_str t ++ render ts.
Proof. reflexivity. Qed.

Lemma brace_free_no_open : forall s, brace_free s = true -> no_open s = true.
Proof.
  induction s as [|c s IH]; simpl; auto.
  intros H. apply andb_true_iff in H as [H1 H2]. apply andb_true_iff in H1 as [H1 _].
  rewrite H1, IH; auto.
Qed.

Lemma no_open_app : forall a b, no_open (a ++ b) = no_open a && no_open b.
Proof. intros. unfold no_open. apply forallb_app. Qed.

(** ** Matching a placeholder at the head of a string *)

Lemma prefixb_app_self : forall p s, prefixb p (p ++ s) = true.
Proof. induction p; simpl; auto. rewrite Z.eqb_refl. auto. Qed.

Lemma prefixb_open_head : forall p c s,
  (c =? 123)%Z = false -> prefixb (123%Z :: p) (c :: s) = false.
Proof. intros. cbn [prefixb]. rewrite Z.eqb_sym, H. reflexivity. Qed.

Lemma prefixb_names : forall n m s,
  brace_free n = true -> brace_free m = true ->
  prefixb (n ++ [125; 125]%Z) (m ++ [125; 125]%Z ++ s) = true -> n = m.
Proof.
  induction n as [|a n IH]; destruct m as [|b m]; intros s Hn Hm H; simpl in *; auto.
  - apply andb_true_iff in Hm as [Hb _]. apply andb_true_iff in Hb as [_ Hb].
    apply andb_true_iff in H as [H _]. apply Z.eqb_eq in H. subst.
    rewrite Z.eqb_refl in Hb. discriminate.
  - apply andb_true_iff in Hn as [Ha _]. apply andb_true_iff in Ha as [_ Ha].
    apply andb_true_iff in H as [H _]. apply Z.eqb_eq in H. subst.
    rewrite Z.eqb_refl in Ha. discriminate.
  - apply andb_true_iff in Hn as [_ Hn]. apply andb_true_iff in Hm as [_ Hm].
    apply andb_true_iff in H as [H1 H2]. apply Z.eqb_eq in H1. subst.
    f_equal. eapply IH; eauto.
Qed.

Lemma prefixb_ph_ph : forall n m s,
  brace_free n = true -> brace_free m = true ->
  prefixb (ph n) (ph m ++ s) = true -> n = m.
Proof.
  intros n m s Hn Hm H. unfold ph in H. simpl in H.
  rewrite <- !app_assoc in H. eapply prefixb_names; eauto.
Qed.

(** After the first ['{'] of [{{m}}], the placeholder [{{n}}] cannot start. *)
Lemma prefixb_ph_second : forall n m s,
  brace_free m = true ->
  prefixb (ph n) (123%Z :: m ++ [125; 125]%Z ++ s) = false.
Proof.
  intros n m s Hm. unfold ph. simpl.
  destruct m as [|b m]; simpl; [reflexivity|].
  simpl in Hm. apply andb_true_iff in Hm as [Hb _]. apply andb_true_iff in Hb as [Hb _].
  apply negb_true_iff in Hb. rewrite Z.eqb_sym, Hb. reflexivity.
Qed.

(** ** [str.replace] of a placeholder *)

Section ReplacePlaceholder.
Variables (n r : pystr).
Hypothesis Hn : brace_free n = true.

Lemma py_replace_ph : forall s, py_replace s (ph n) r = repl_scan (ph n) r 0 s.
Proof. reflexivity. Qed.

Lemma repl_scan_no_open : forall x s,
  no_open x = true -> repl_scan (ph n) r 0 (x ++ s) = x ++ repl_scan (ph n) r 0 s.
Proof.
  induction x as [|c x IH]; intros s Hx; simpl; auto.
  simpl in Hx. apply andb_true_iff in Hx as [Hc Hx]. apply negb_true_iff in Hc.
  rewrite (Z.eqb_sym 123 c), Hc. simpl andb. cbv iota.
  rewrite IH by exact Hx. reflexivity.
Qed.

Lemma repl_scan_skip : forall x s,
  repl_scan (ph n) r (length x) (x ++ s) = repl_scan (ph n) r 0 s.
Proof. induction x as [|c x IH]; intros s; simpl; auto. Qed.

Lemma repl_scan_hit : forall s,
  repl_scan (ph n) r 0 (ph n ++ s) = r ++ repl_scan (ph n) r 0 s.
Proof.
  intros s.
  change (ph n ++ s) with (123%Z :: ((123%Z :: n ++ [125; 125]%Z) ++ s)).
  cbn [repl_scan].
  replace (prefixb (ph n) (123%Z :: (123%Z :: n ++ [125; 125]%Z) ++ s)) with true
    by (symmetry; apply (prefixb_app_self (ph n) s)).
  f_equal.
  replace (pred (length (ph n))) with (length (123%Z :: n ++ [125; 125]%Z)) by reflexivity.
  apply repl_scan_skip.
Qed.

Lemma repl_scan_other : forall m s,
  brace_free m = true -> m <> n ->
  repl_scan (ph n) r 0 (ph m ++ s) = ph m ++ repl_scan (ph n) r 0 s.
Proof.
  intros m s Hm Hne.
  change (ph m ++ s) with (123%Z :: 123%Z :: (m ++ [125; 125]%Z) ++ s).
  cbn [repl_scan].
  replace (prefixb (ph n) (123%Z :: 123%Z :: (m ++ [125; 125]%Z) ++ s)) with false.
  2:{ symmetry. destruct (prefixb (ph n) (123%Z :: 123%Z :: (m ++ [125; 125]%Z) ++ s)) eqn:E;
      auto. exfalso. apply Hne. symmetry. exact (prefixb_ph_ph n m s Hn Hm E). }
  rewrite <- app_assoc, prefixb_ph_second by exact Hm.
  rewrite repl_scan_no_open.
  - unfold ph. simpl. rewrite <- app_assoc. reflexivity.
  - apply brace_free_no_open; exact Hm.
Qed.

Lemma replace_render : forall ts,
  wf ts = true ->
  py_replace (render ts) (ph n) r = render (map (tfill n r) ts).
Proof.
  intros ts. rewrite py_replace_ph.
  induction ts as [|t ts IH]; intros Hw; [reflexivity|].
  simpl in Hw. apply andb_true_iff in Hw as [Ht Hw].
  rewrite render_cons. simpl map. rewrite render_cons.
  destruct t as [s|m]; cbn [tok_ok] in Ht; cbn [tfill tok_str].
  - rewrite repl_scan_no_open by exact Ht. rewrite IH by exact Hw. reflexivity.
  - destruct (pystr_eqb m n) eqn:E.
    + apply pystr_eqb_eq in E. subst m. cbn [tok_str].
      rewrite repl_scan_hit, IH by exact Hw. reflexivity.
    + cbn [tok_str]. rewrite repl_scan_other; auto.
      * rewrite IH by exact Hw. reflexivity.
      * intros ->. rewrite pystr_eqb_refl in E. discriminate.
Qed.

End ReplacePlaceholder.

Lemma wf_tfill : forall n r ts,
  no_open r = true -> wf ts = true -> wf (map (tfill n r) ts) = true.
Proof.
  intros n r ts Hr. induction ts as [|t ts IH]; simpl; auto.
  intros H. apply andb_true_iff in H as [Ht H]. rewrite IH by exact H.
  destruct t as [s|m]; simpl in *; rewrite ?Ht; auto.
  destruct (pystr_eqb m n); simpl; rewrite ?Hr, ?Ht; auto.
Qed.

(** The working copy after a sequence of replacements is the template with
    each token passed through the sequence. *)
Lemma replace_chain_render : forall steps ts,
  steps_ok steps = true -> wf ts = true ->
  replace_chain steps (render ts) = render (map (tok_chain steps) ts).
Proof.
  induction steps as [|[n r] steps IH]; intros ts Hs Hw.
  - unfold replace_chain, tok_chain. simpl. rewrite map_id. reflexivity.
  - simpl in Hs. apply andb_true_iff in Hs as [Hnr Hs].
    apply andb_true_iff in Hnr as [Hn Hr].
    change (replace_chain ((n, r) :: steps) (render ts))
      with (replace_chain steps (py_replace (render ts) (ph n) r)).
    rewrite replace_render by assumption.
    rewrite IH; [| exact Hs | apply wf_tfill; assumption].
    rewrite map_map. reflexivity.
Qed.

Lemma wf_chain : forall steps ts,
  steps_ok steps = true -> wf ts = true -> wf (map (tok_chain steps) ts) = true.
Proof.
  induction steps as [|[n r] steps IH]; intros ts Hs Hw.
  - unfold tok_chain. simpl. rewrite map_id. exact Hw.
  - simpl in Hs. apply andb_true_iff in Hs as [Hnr Hs].
    apply andb_true_iff in Hnr as [Hn Hr].
    replace (map (tok_chain ((n, r) :: steps)) ts)
      with (map (tok_chain steps) (map (tfill n r) ts)) by (rewrite map_map; reflexivity).
    apply IH; [exact Hs | apply wf_tfill; assumption].
Qed.

Lemma tok_chain_Lit : forall steps s, tok_chain steps (Lit s) = Lit s.
Proof.
  induction steps as [|[n r] steps IH]; intros s; [reflexivity|].
  unfold tok_chain in *. simpl. apply IH.
Qed.

Lemma tok_chain_Ph : forall steps m, tok_chain steps (Ph m) = first_rep m steps.
Proof.
  induction steps as [|[n r] steps IH]; intros m; [reflexivity|].
  unfold tok_chain in *. simpl. rewrite pystr_eqb_sym.
  destruct (pystr_eqb n m); [apply tok_chain_Lit | apply IH].
Qed.

Lemma first_rep_app : forall m st1 st2,
  first_rep m (st1 ++ st2) =
  match first_rep m st1 with Ph _ => first_rep m st2 | t => t end.
Proof.
  intros m st1 st2. induction st1 as [|[n r] st1 IH]; [reflexivity|].
  simpl. destruct (pystr_eqb n m); [reflexivity | exact IH].
Qed.

(** ** Decimal numbers *)

Definition is_digit (c : Z) : bool := ((48 <=? c) && (c <=? 57))%Z.

Lemma dec_aux_digits : forall f n acc,
  forallb is_digit acc = true -> forallb is_digit (dec_aux f n acc) = true.
Proof.
  induction f as [|f IH]; intros n acc H; cbn [dec_aux]; auto.
  assert (Hd : is_digit (48 + Z.of_nat (n mod 10)) = true).
  { unfold is_digit. apply andb_true_iff. split; apply Z.leb_le;
    pose proof (Nat.mod_upper_bound n 10); lia. }
  destruct (n <? 10); [cbn [forallb]; rewrite Hd, H; reflexivity|].
  apply IH. cbn [forallb]. rewrite Hd, H. reflexivity.
Qed.

Lemma str_nat_digits : forall n, forallb is_digit (str_nat n) = true.
Proof. intros n. apply dec_aux_digits. reflexivity. Qed.

Lemma digits_brace_free : forall s, forallb is_digit s = true -> brace_free s = true.
Proof.
  induction s as [|c s IH]; simpl; auto. intros H.
  apply andb_true_iff in H as [Hc H]. rewrite IH by exact H.
  unfold is_digit in Hc. apply andb_true_iff in Hc as [H1 H2].
  apply Z.leb_le in H1. apply Z.leb_le in H2.
  replace (c =? 123)%Z with false by (symmetry; apply Z.eqb_neq; lia).
  replace (c =? 125)%Z with false by (symmetry; apply Z.eqb_neq; lia).
  reflexivity.
Qed.

Lemma str_nat_brace_free : forall n, brace_free (str_nat n) = true.
Proof. intros. apply digits_brace_free, str_nat_digits. Qed.

Lemma brace_free_app : forall a b, brace_free (a ++ b) = brace_free a && brace_free b.
Proof. intros. unfold brace_free. apply forallb_app. Qed.

(** ** Placeholders as the code spells them *)

Lemma ph_Option : forall a b,
  s2l "{{Option_" ++ a ++ b ++ s2l "}}" = ph (s2l "Option_" ++ a ++ b).
Proof. intros. unfold ph. simpl. rewrite <- ?app_assoc. reflexivity. Qed.

Lemma markRight_chain : forall c qnum v,
  markRight c qnum v = replace_chain (option_steps qnum v) c.
Proof.
  intros. unfold markRight, replace_chain, option_steps. cbn [map fold_left fst snd].
  rewrite !ph_Option. reflexivity.
Qed.

Lemma opt_name_inj : forall q i j, opt_name q i = opt_name q j -> str_nat i = str_nat j.
Proof. unfold opt_name. intros q i j H. apply app_inv_head in H. apply app_inv_head in H. exact H. Qed.

Lemma opt_name_brace_free : forall q i, brace_free (opt_name q i) = true.
Proof.
  intros. unfold opt_name. rewrite !brace_free_app, !str_nat_brace_free. reflexivity.
Qed.

Lemma option_steps_JNum : forall q k, (0 <= k <= 3)%Z ->
  option_steps q (JNum k) =
  map (fun i => (opt_name q i,
                 if Nat.eqb i (Z.to_nat k + 1) then s2l "true" else s2l "false"))
      [1; 2; 3; 4].
Proof.
  intros q k Hk.
  assert (k = 0 \/ k = 1 \/ k = 2 \/ k = 3)%Z as [ -> | [ -> | [ -> | -> ]]] by lia; reflexivity.
Qed.

Lemma option_steps_ok : forall q v, steps_ok (option_steps q v) = true.
Proof.
  intros. unfold option_steps, steps_ok. cbn [map forallb fst snd].
  rewrite !opt_name_brace_free.
  repeat match goal with |- context [if ?b then _ else _] => destruct b end; reflexivity.
Qed.

Ltac opt_names_distinct :=
  match goal with
  | H1 : pystr_eqb (opt_name ?q ?i) ?m = true, H2 : pystr_eqb (opt_name ?q ?j) ?m = true |- _ =>
      apply pystr_eqb_eq in H1; apply pystr_eqb_eq in H2; subst m;
      apply opt_name_inj in H2; vm_compute in H2; discriminate H2
  end.

Lemma option_steps_resolution : forall q k t, (0 <= k <= 3)%Z ->
  tok_chain (option_steps q (JNum k)) t = option_resolution q (Z.to_nat k + 1) t.
Proof.
  intros q k [s|m] Hk; [apply tok_chain_Lit|].
  rewrite tok_chain_Ph, option_steps_JNum by exact Hk.
  unfold option_resolution. cbn [map first_rep existsb].
  replace (Z.to_nat k + 1) with (S (Z.to_nat k)) by lia.
  assert (k = 0 \/ k = 1 \/ k = 2 \/ k = 3)%Z as [ -> | [ -> | [ -> | -> ]]] by lia;
  [change (Z.to_nat 0) with 0%nat | change (Z.to_nat 1) with 1%nat
  | change (Z.to_nat 2) with 2%nat | change (Z.to_nat 3) with 3%nat]; simpl Nat.eqb;
  destruct (pystr_eqb (opt_name q 1) m) eqn:E1;
  destruct (pystr_eqb (opt_name q 2) m) eqn:E2;
  destruct (pystr_eqb (opt_name q 3) m) eqn:E3;
  destruct (pystr_eqb (opt_name q 4) m) eqn:E4;
  cbn [orb]; try reflexivity; opt_names_distinct.
Qed.

Lemma str_nat_small : forall a, a < 10 -> str_nat a = [48 + Z.of_nat a]%Z.
Proof.
  intros a Ha. unfold str_nat. cbn [dec_aux].
  replace (a <? 10) with true by (symmetry; apply Nat.ltb_lt; exact Ha).
  rewrite Nat.mod_small by exact Ha. reflexivity.
Qed.

Lemma opt_name_eqb : forall q a b, a < 10 -> b < 10 ->
  pystr_eqb (opt_name q a) (opt_name q b) = Nat.eqb a b.
Proof.
  intros q a b Ha Hb. destruct (Nat.eqb a b) eqn:E.
  - apply Nat.eqb_eq in E. subst. apply pystr_eqb_refl.
  - apply pystr_eqb_neq. intros H. apply opt_name_inj in H.
    rewrite !str_nat_small in H by assumption. apply (f_equal (fun l => nth 0 l 0%Z)) in H. cbn [nth] in H.
    apply Nat.eqb_neq in E. lia.
Qed.

(** ** The filler as a sequence of replacements *)

Lemma ph_ANSWER : forall a c,
  s2l "{{ANSWER_" ++ a ++ [c] ++ s2l "}}" = ph (s2l "ANSWER_" ++ a ++ [c]).
Proof. intros. unfold ph. simpl. rewrite <- ?app_assoc. reflexivity. Qed.

Lemma ph_QUESTION : forall a,
  s2l "{{QUESTION_" ++ a ++ s2l "}}" = ph (s2l "QUESTION_" ++ a).
Proof. intros. unfold ph. simpl. rewrite <- ?app_assoc. reflexivity. Qed.

Lemma replace_chain_cons : forall n r steps s,
  replace_chain ((n, r) :: steps) s = replace_chain steps (py_replace s (ph n) r).
Proof. reflexivity. Qed.

Lemma replace_chain_app : forall st1 st2 s,
  replace_chain (st1 ++ st2) s = replace_chain st2 (replace_chain st1 s).
Proof. intros. unfold replace_chain. apply fold_left_app. Qed.

Lemma fill_answers_chain : forall answers qnum anum c,
  (64 + Z.of_nat anum + Z.of_nat (length answers) <= 1114112)%Z ->
  fill_answers qnum anum (map JStr answers) c
    = Ok (replace_chain (answer_steps qnum anum answers) c).
Proof.
  induction answers as [|a answers IH]; intros qnum anum c Hlen; [reflexivity|].
  cbn [map fill_answers answer_steps length] in *.
  unfold py_chr. replace (Z.of_nat (64 + anum) <=? 1114111)%Z with true
    by (symmetry; apply Z.leb_le; lia).
  cbn [bind as_str]. rewrite IH by lia. rewrite replace_chain_cons.
  unfold answer_name. rewrite ph_ANSWER. reflexivity.
Qed.

Lemma fill_questions_chain : forall qs gs qnum c,
  Forall2 question_shape qs gs ->
  Forall (fun g => 64 + Z.of_nat (length (q_answers g)) <= 1114111)%Z gs ->
  fill_questions qnum qs c = Ok (replace_chain (questions_steps qnum gs) c).
Proof.
  intros qs gs qnum c H. revert qnum c.
  induction H as [|q g qs gs [Hq [Ha Hc]] Hrest IH]; intros qnum c Hlen; [reflexivity|].
  inversion Hlen as [|? ? Hg Hlen']; subst.
  cbn [fill_questions questions_steps].
  rewrite Hq. cbn [bind as_str]. rewrite Ha. cbn [bind py_iter].
  rewrite fill_answers_chain by lia. cbn [bind]. rewrite Hc. cbn [bind].
  rewrite IH by exact Hlen'. rewrite markRight_chain.
  unfold question_steps. rewrite replace_chain_app, replace_chain_cons, replace_chain_app.
  rewrite ph_QUESTION. reflexivity.
Qed.

Lemma fill_content_chain : forall tmpl quiz title qs gs idv,
  quiz_shape quiz title qs gs idv ->
  fill_content tmpl quiz = Ok (replace_chain (quiz_steps title gs) tmpl).
Proof.
  intros tmpl quiz title qs gs idv [Ht [Hq [Hi [Hs Hlen]]]].
  unfold fill_content. rewrite Ht. cbn [bind as_str]. rewrite Hq. cbn [bind py_iter].
  rewrite (fill_questions_chain qs gs) by assumption.
  unfold quiz_steps. rewrite replace_chain_cons. reflexivity.
Qed.

Lemma fill_quiz_chain : forall tmpl meta quiz title qs gs idv,
  quiz_shape quiz title qs gs idv ->
  fill_quiz tmpl meta quiz
    = Ok (replace_chain (quiz_steps title gs) tmpl
          ++ py_replace meta (s2l "{{ID}}") (py_str idv)).
Proof.
  intros tmpl meta quiz title qs gs idv Hs. unfold fill_quiz.
  rewrite (fill_content_chain tmpl quiz title qs gs idv Hs). cbn [bind].
  destruct Hs as [_ [_ [Hi _]]]. rewrite Hi. reflexivity.
Qed.

(** ** Decimal numbers read back *)

Fixpoint read_dec (v : nat) (l : pystr) : nat :=
  match l with
  | [] => v
  | d :: l' => read_dec (v * 10 + Z.to_nat (d - 48)) l'
  end.

Lemma dec_aux_read : forall f n acc,
  n < f -> read_dec 0 (dec_aux f n acc) = read_dec n acc.
Proof.
  induction f as [|f IH]; intros n acc Hn; [lia|].
  cbn [dec_aux].
  assert (Hd : Z.to_nat (48 + Z.of_nat (n mod 10) - 48) = n mod 10)
    by (rewrite Z.add_simpl_l; apply Nat2Z.id).
  destruct (n <? 10) eqn:E.
  - apply Nat.ltb_lt in E. cbn [read_dec]. rewrite Hd, Nat.mod_small by exact E.
    reflexivity.
  - apply Nat.ltb_ge in E. rewrite IH.
    + cbn [read_dec]. rewrite Hd. f_equal.
      pose proof (Nat.div_mod_eq n 10). lia.
    + pose proof (Nat.div_lt n 10). lia.
Qed.

Lemma str_nat_inj : forall a b, str_nat a = str_nat b -> a = b.
Proof.
  intros a b H.
  assert (Ha : read_dec 0 (str_nat a) = a) by (apply dec_aux_read; lia).
  assert (Hb : read_dec 0 (str_nat b) = b) by (apply dec_aux_read; lia).
  rewrite <- Ha, <- Hb, H. reflexivity.
Qed.

(** ** Which replacement a placeholder meets first *)

Lemma answer_name_inj : forall q a q' a',
  answer_name q a = answer_name q' a' -> q = q' /\ a = a'.
Proof.
  unfold answer_name. intros q a q' a' H. apply app_inv_head in H.
  apply app_inj_tail in H as [H1 H2]. split.
  - apply str_nat_inj. exact H1.
  - lia.
Qed.

Lemma answer_name_eqb : forall q a q' a',
  pystr_eqb (answer_name q' a') (answer_name q a) = Nat.eqb q' q && Nat.eqb a' a.
Proof.
  intros. destruct (Nat.eqb q' q) eqn:Eq; cbn [andb].
  - apply Nat.eqb_eq in Eq. subst q'. destruct (Nat.eqb a' a) eqn:Ea.
    + apply Nat.eqb_eq in Ea. subst a'. apply pystr_eqb_refl.
    + apply pystr_eqb_neq. intros H. apply answer_name_inj in H as [_ H]. subst a'.
      rewrite Nat.eqb_refl in Ea. discriminate.
  - apply pystr_eqb_neq. intros H. apply answer_name_inj in H as [H _]. subst q'.
    rewrite Nat.eqb_refl in Eq. discriminate.
Qed.

Lemma title_answer_eqb : forall q a, pystr_eqb (s2l "TITLE") (answer_name q a) = false.
Proof. reflexivity. Qed.

Lemma question_answer_eqb : forall x q a,
  pystr_eqb (s2l "QUESTION_" ++ x) (answer_name q a) = false.
Proof. reflexivity. Qed.

Lemma option_answer_eqb : forall q' i q a, pystr_eqb (opt_name q' i) (answer_name q a) = false.
Proof. reflexivity. Qed.

Lemma first_rep_answer_steps : forall answers q a0 a,
  first_rep (answer_name q a) (answer_steps q a0 answers)
  = if a0 <=? a then
      match nth_error answers (a - a0) with
      | Some x => Lit x
      | None => Ph (answer_name q a)
      end
    else Ph (answer_name q a).
Proof.
  induction answers as [|x answers IH]; intros q a0 a.
  - cbn. destruct (a0 <=? a); [destruct (a - a0)|]; reflexivity.
  - cbn [answer_steps first_rep]. rewrite answer_name_eqb, Nat.eqb_refl. cbn [andb].
    destruct (Nat.eqb a0 a) eqn:E.
    + apply Nat.eqb_eq in E. subst. rewrite Nat.leb_refl, Nat.sub_diag. reflexivity.
    + apply Nat.eqb_neq in E. rewrite IH.
      destruct (Nat.leb_spec (S a0) a), (Nat.leb_spec a0 a); try lia; try reflexivity.
      replace (a - a0) with (S (a - S a0)) by lia. reflexivity.
Qed.

Lemma first_rep_option_steps_answer : forall q' v q a,
  first_rep (answer_name q a) (option_steps q' v) = Ph (answer_name q a).
Proof.
  intros. unfold option_steps. cbn [map first_rep]. rewrite !option_answer_eqb. reflexivity.
Qed.

Lemma first_rep_question_steps_answer : forall q' g q a,
  first_rep (answer_name q a) (question_steps q' g)
  = if Nat.eqb q' q then
      if 1 <=? a then
        match nth_error (q_answers g) (a - 1) with
        | Some x => Lit x
        | None => Ph (answer_name q a)
        end
      else Ph (answer_name q a)
    else Ph (answer_name q a).
Proof.
  intros q' g q a. unfold question_steps. cbn [first_rep].
  rewrite question_answer_eqb, first_rep_app.
  destruct (Nat.eqb q' q) eqn:E.
  - apply Nat.eqb_eq in E. subst q'. rewrite first_rep_answer_steps.
    destruct (1 <=? a); [destruct (nth_error (q_answers g) (a - 1))|];
      try reflexivity; apply first_rep_option_steps_answer.
  - assert (Hq : forall answers a0,
               first_rep (answer_name q a) (answer_steps q' a0 answers) = Ph (answer_name q a)).
    { induction answers as [|x answers IH]; intros a0; [reflexivity|].
      cbn [answer_steps first_rep]. rewrite answer_name_eqb, E. apply IH. }
    rewrite Hq. apply first_rep_option_steps_answer.
Qed.

Lemma first_rep_questions_steps_answer : forall gs q0 q a,
  first_rep (answer_name q a) (questions_steps q0 gs)
  = if q0 <=? q then
      match nth_error gs (q - q0) with
      | Some g =>
          if 1 <=? a then
            match nth_error (q_answers g) (a - 1) with
            | Some x => Lit x
            | None => Ph (answer_name q a)
            end
          else Ph (answer_name q a)
      | None => Ph (answer_name q a)
      end
    else Ph (answer_name q a).
Proof.
  induction gs as [|g gs IH]; intros q0 q a.
  - cbn. destruct (q0 <=? q); [destruct (q - q0)|]; reflexivity.
  - cbn [questions_steps]. rewrite first_rep_app, first_rep_question_steps_answer.
    destruct (Nat.eqb q0 q) eqn:E.
    + apply Nat.eqb_eq in E. subst. rewrite Nat.leb_refl, Nat.sub_diag. cbn [nth_error].
      rewrite IH. replace (S q <=? q) with false by (symmetry; apply Nat.leb_gt; lia).
      destruct (1 <=? a); [destruct (nth_error (q_answers g) (a - 1))|]; reflexivity.
    + apply Nat.eqb_neq in E. rewrite IH.
      destruct (Nat.leb_spec (S q0) q), (Nat.leb_spec q0 q); try lia; try reflexivity.
      replace (q - q0) with (S (q - S q0)) by lia. reflexivity.
Qed.

(** ** The replacements keep the token invariant *)

Lemma answer_name_brace_free : forall q a,
  (Z.of_nat (64 + a) < 123)%Z -> brace_free (answer_name q a) = true.
Proof.
  intros q a H. unfold answer_name. rewrite !brace_free_app, str_nat_brace_free.
  cbn [brace_free forallb]. replace (Z.of_nat (64 + a) =? 123)%Z with false
    by (symmetry; apply Z.eqb_neq; lia).
  replace (Z.of_nat (64 + a) =? 125)%Z with false
    by (symmetry; apply Z.eqb_neq; lia). reflexivity.
Qed.

Lemma steps_ok_app : forall a b, steps_ok (a ++ b) = steps_ok a && steps_ok b.
Proof. intros. unfold steps_ok. apply forallb_app. Qed.

Lemma answer_steps_ok : forall answers q a0,
  Forall (fun a => no_open a = true) answers -> a0 + length answers <= 59 ->
  steps_ok (answer_steps q a0 answers) = true.
Proof.
  induction answers as [|x answers IH]; intros q a0 Hn Hl; [reflexivity|].
  inversion Hn as [|? ? Hx Hn']; subst. cbn [answer_steps length] in *.
  unfold steps_ok. cbn [forallb fst snd]. fold (steps_ok (answer_steps q (S a0) answers)).
  rewrite answer_name_brace_free by lia. rewrite Hx, IH by (assumption || lia). reflexivity.
Qed.

Lemma questions_steps_ok : forall gs q0,
  Forall (fun g => no_open (q_text g) = true /\
                   Forall (fun a => no_open a = true) (q_answers g)) gs ->
  Forall (fun g => length (q_answers g) <= 58) gs ->
  steps_ok (questions_steps q0 gs) = true.
Proof.
  induction gs as [|g gs IH]; intros q0 Hd Hl; [reflexivity|].
  inversion Hd as [|? ? [Ht Ha] Hd']; inversion Hl as [|? ? Hg Hl']; subst.
  cbn [questions_steps]. rewrite steps_ok_app, IH by assumption.
  unfold question_steps. cbn [steps_ok forallb]. fold (steps_ok (answer_steps q0 1 (q_answers g) ++ option_steps q0 (q_correct g))).
  rewrite steps_ok_app, option_steps_ok.
  rewrite answer_steps_ok by (assumption || lia).
  unfold steps_ok. cbn [forallb fst snd].
  rewrite brace_free_app, str_nat_brace_free, Ht. reflexivity.
Qed.

Lemma quiz_steps_ok : forall title gs,
  data_no_open title gs ->
  Forall (fun g => length (q_answers g) <= 58) gs ->
  steps_ok (quiz_steps title gs) = true.
Proof.
  intros title gs [Ht Hd] Hl. unfold quiz_steps, steps_ok. cbn [forallb fst snd].
  fold (steps_ok (questions_steps 1 gs)). rewrite questions_steps_ok by assumption.
  rewrite Ht. reflexivity.
Qed.

(** ** Occurrences of a placeholder *)

Section Occurs.
Variable n : pystr.
Hypothesis Hn : brace_free n = true.

Lemma occursb_no_open : forall x s,
  no_open x = true -> occursb (ph n) (x ++ s) = occursb (ph n) s.
Proof.
  induction x as [|c x IH]; intros s Hx; [reflexivity|].
  cbn in Hx. apply andb_true_iff in Hx as [Hc Hx]. apply negb_true_iff in Hc.
  change ((c :: x) ++ s) with (c :: (x ++ s)).
  change (occursb (ph n) (c :: x ++ s))
    with (prefixb (123%Z :: 123%Z :: n ++ [125; 125]%Z) (c :: x ++ s) || occursb (ph n) (x ++ s)).
  rewrite prefixb_open_head by exact Hc. apply IH. exact Hx.
Qed.

Lemma occursb_other : forall m s,
  brace_free m = true -> m <> n ->
  occursb (ph n) (ph m ++ s) = occursb (ph n) s.
Proof.
  intros m s Hm Hne.
  change (ph m ++ s) with (123%Z :: 123%Z :: (m ++ [125; 125]%Z) ++ s).
  change (occursb (ph n) (123%Z :: 123%Z :: (m ++ [125; 125]%Z) ++ s))
    with (prefixb (ph n) (123%Z :: 123%Z :: (m ++ [125; 125]%Z) ++ s)
          || (prefixb (ph n) (123%Z :: (m ++ [125; 125]%Z) ++ s)
              || occursb (ph n) ((m ++ [125; 125]%Z) ++ s))).
  replace (prefixb (ph n) (123%Z :: 123%Z :: (m ++ [125; 125]%Z) ++ s)) with false.
  2:{ symmetry. destruct (prefixb (ph n) (123%Z :: 123%Z :: (m ++ [125; 125]%Z) ++ s)) eqn:E;
      auto. exfalso. apply Hne. symmetry. exact (prefixb_ph_ph n m s Hn Hm E). }
  rewrite <- app_assoc, prefixb_ph_second by exact Hm. cbn [orb].
  rewrite (app_assoc m [125; 125]%Z s). apply occursb_no_open. rewrite no_open_app, brace_free_no_open by exact Hm. reflexivity.
Qed.

Lemma occursb_render : forall ts,
  wf ts = true -> Forall (fun t => t <> Ph n) ts -> occursb (ph n) (render ts) = false.
Proof.
  induction ts as [|t ts IH]; intros Hw Hno; [reflexivity|].
  cbn [wf forallb] in Hw. apply andb_true_iff in Hw as [Ht Hw].
  inversion Hno as [|? ? Htn Hno']; subst.
  rewrite render_cons. destruct t as [s|m]; cbn [tok_ok tok_str] in *.
  - rewrite occursb_no_open by exact Ht. apply IH; assumption.
  - rewrite occursb_other; [apply IH; assumption | exact Ht |].
    intros ->. apply Htn. reflexivity.
Qed.

End Occurs.

(** ** The filler on a token template *)

Lemma fill_quiz_tokens : forall ts meta quiz title qs gs idv,
  wf ts = true -> quiz_shape quiz title qs gs idv -> data_no_open title gs ->
  Forall (fun g => length (q_answers g) <= 58) gs ->
  fill_quiz (render ts) meta quiz
    = Ok (render (map (tok_chain (quiz_steps title gs)) ts)
          ++ py_replace meta (s2l "{{ID}}") (py_str idv)).
Proof.
  intros ts meta quiz title qs gs idv Hw Hs Hd Hl.
  rewrite (fill_quiz_chain _ _ _ _ _ _ _ Hs).
  rewrite replace_chain_render; [reflexivity | apply quiz_steps_ok; assumption | exact Hw].
Qed.

Lemma first_rep_cases : forall m st,
  first_rep m st = Ph m \/ exists r, first_rep m st = Lit r.
Proof.
  intros m st. induction st as [|[n r] st IH]; [left; reflexivity|].
  cbn [first_rep]. destruct (pystr_eqb n m); [right; exists r; reflexivity | exact IH].
Qed.

Lemma first_rep_quiz_answer : forall title gs qnum anum g,
  1 <= qnum -> 1 <= anum -> nth_error gs (qnum - 1) = Some g ->
  first_rep (answer_name qnum anum) (quiz_steps title gs)
  = match nth_error (q_answers g) (anum - 1) with
    | Some ans => Lit ans
    | None => Ph (answer_name qnum anum)
    end.
Proof.
  intros title gs qnum anum g Hq Ha Hg. unfold quiz_steps. cbn [first_rep].
  rewrite title_answer_eqb, first_rep_questions_steps_answer.
  replace (1 <=? qnum) with true by (symmetry; apply Nat.leb_le; exact Hq).
  replace (1 <=? anum) with true by (symmetry; apply Nat.leb_le; exact Ha).
  rewrite Hg. reflexivity.
Qed.

(** ** [str.strip] *)

Lemma lstrip_idem : forall s, lstrip (lstrip s) = lstrip s.
Proof.
  induction s as [|a s IH]; [reflexivity|].
  cbn [lstrip]. destruct (py_isspace a) eqn:E; [exact IH|].
  cbn [lstrip]. rewrite E. reflexivity.
Qed.

Lemma lstrip_head : forall s c r, lstrip s = c :: r -> py_isspace c = false.
Proof.
  induction s as [|a s IH]; intros c r H; cbn [lstrip] in H; [discriminate|].
  destruct (py_isspace a) eqn:E; [exact (IH c r H)|].
  injection H as <- _. exact E.
Qed.

Lemma lstrip_nonspace : forall c r, py_isspace c = false -> lstrip (c :: r) = c :: r.
Proof. intros c r H. cbn [lstrip]. rewrite H. reflexivity. Qed.

Lemma lstrip_suffix : forall s, exists p, s = p ++ lstrip s.
Proof.
  induction s as [|a s [p Hp]]; [exists []; reflexivity|].
  cbn [lstrip]. destruct (py_isspace a).
  - exists (a :: p). cbn [app]. congruence.
  - exists []. reflexivity.
Qed.

Lemma strip_head : forall s c r, strip s = c :: r -> py_isspace c = false.
Proof.
  intros s c r H. unfold strip in H.
  destruct (lstrip_suffix (rev (lstrip s))) as [p Hp].
  apply (f_equal (@rev Z)) in Hp.
  rewrite rev_involutive, rev_app_distr, H in Hp.
  exact (lstrip_head s c (r ++ rev p) Hp).
Qed.

Lemma strip_last : forall s c r, strip s = r ++ [c] -> py_isspace c = false.
Proof.
  intros s c r H. unfold strip in H.
  apply (f_equal (@rev Z)) in H.
  rewrite rev_involutive, rev_app_distr in H. cbn [rev app] in H.
  exact (lstrip_head _ c (rev r) H).
Qed.

Lemma strip_idem : forall s, strip (strip s) = strip s.
Proof.
  intros s. unfold strip at 1.
  destruct (strip s) as [|c r] eqn:E.
  - reflexivity.
  - rewrite (lstrip_nonspace c r (strip_head s c r E)).
    rewrite <- E. unfold strip. rewrite rev_involutive, lstrip_idem. reflexivity.
Qed.

(** ** The request handler *)

Lemma generate_xmls_checks_pass : forall cfg fs req data xml meta,
  files_quiz_json req = Some (UJson data) ->
  strip (form_get_base_name req) <> [] ->
  fs (XML_TEMPLATE_PATH cfg) = FContent xml ->
  fs (META_BLOCK_PATH cfg) = FContent meta ->
  generate_xmls cfg fs req = package_response data (strip (form_get_base_name req)) xml meta.
Proof.
  intros cfg fs req data xml meta Hf Hb Hx Hm. unfold generate_xmls.
  rewrite Hf. destruct (strip (form_get_base_name req)) as [|c r]; [contradiction|].
  rewrite Hx, Hm. reflexivity.
Qed.

Lemma generate_xmls_RFile : forall cfg fs req mt dn zipf,
  generate_xmls cfg fs req = RFile mt dn zipf ->
  exists data xml meta,
    files_quiz_json req = Some (UJson data) /\
    strip (form_get_base_name req) <> [] /\
    fs (XML_TEMPLATE_PATH cfg) = FContent xml /\
    fs (META_BLOCK_PATH cfg) = FContent meta /\
    package_response data (strip (form_get_base_name req)) xml meta = RFile mt dn zipf.
Proof.
  intros cfg fs req mt dn zipf H. unfold generate_xmls in H.
  destruct (files_quiz_json req) as [u|]; try discriminate.
  destruct (strip (form_get_base_name req)) as [|c r]; try discriminate.
  destruct u as [data|err]; try discriminate.
  destruct (fs (XML_TEMPLATE_PATH cfg)) as [xml| |]; try discriminate.
  destruct (fs (META_BLOCK_PATH cfg)) as [meta| |]; try discriminate.
  exists data, xml, meta.
  refine (conj eq_refl (conj _ (conj eq_refl (conj eq_refl H)))). discriminate.
Qed.

(** ** The archive *)

Lemma pack_app : forall base xml meta pre rest idx zipf,
  pack base xml meta idx (pre ++ rest) zipf
  = bind (pack base xml meta idx pre zipf)
         (fun z => pack base xml meta (idx + length pre) rest z).
Proof.
  intros base xml meta pre. induction pre as [|q pre IH]; intros rest idx zipf.
  - cbn [pack app List.length bind]. rewrite Nat.add_0_r. reflexivity.
  - cbn [pack app List.length]. unfold bind at 1 3.
    destruct (fill_quiz xml meta q) as [full|e]; [|reflexivity].
    unfold bind at 1 2. destruct (writestr _ _ _) as [z|e]; [|reflexivity].
    rewrite IH. replace (S idx + length pre) with (idx + S (length pre)) by lia.
    reflexivity.
Qed.

Lemma until_nul_id : forall s, ~ In 0%Z s -> until_nul s = s.
Proof.
  induction s as [|c s IH]; intros H; [reflexivity|].
  cbn [until_nul]. destruct (Z.eqb_spec c 0) as [->|Hc].
  - exfalso. apply H. left. reflexivity.
  - rewrite IH; [reflexivity|]. intros Hin. apply H. right. exact Hin.
Qed.

Lemma file_name_no_nul : forall base idx,
  ~ In 0%Z base -> ~ In 0%Z (base ++ s2l "_" ++ str_nat idx ++ s2l ".xml").
Proof.
  intros base idx Hb Hin.
  apply in_app_or in Hin as [Hin|Hin]; [exact (Hb Hin)|].
  apply in_app_or in Hin as [Hin|Hin]; [destruct Hin as [Hin|[]]; discriminate|].
  apply in_app_or in Hin as [Hin|Hin].
  - pose proof (proj1 (forallb_forall _ _) (str_nat_digits idx) _ Hin) as D.
    discriminate D.
  - destruct Hin as [Hin|[Hin|[Hin|[Hin|[]]]]]; discriminate.
Qed.




(** ** [str.replace] of an absent pattern *)

Lemma repl_scan_absent : forall old new s,
  occursb old s = false -> repl_scan old new 0 s = s.
Proof.
  intros old new s. induction s as [|c s IH]; intros H; [reflexivity|].
  cbn [occursb] in H. apply orb_false_iff in H as [H1 H2].
  cbn [repl_scan]. rewrite H1, (IH H2). reflexivity.
Qed.

Lemma py_replace_absent : forall s old new,
  old <> [] -> occursb old s = false -> py_replace s old new = s.
Proof.
  intros s [|c old] new Hn H; [contradiction|].
  unfold py_replace. exact (repl_scan_absent _ _ s H).
Qed.

Lemma ph_not_nil : forall n, ph n <> [].
Proof. intros n. unfold ph. cbn [app]. discriminate. Qed.

(** ** [str.strip] removes whitespace only *)

Lemma lstrip_split : forall s, exists p, s = p ++ lstrip s /\ forallb py_isspace p = true.
Proof.
  induction s as [|a s [p [Hp Hw]]]; [exists []; split; reflexivity|].
  cbn [lstrip]. destruct (py_isspace a) eqn:E.
  - exists (a :: p). cbn [app forallb]. rewrite E, Hw. split; [congruence|reflexivity].
  - exists []. split; reflexivity.
Qed.

Lemma forallb_rev : forall (f : Z -> bool) l, forallb f (rev l) = forallb f l.
Proof.
  intros f l. induction l as [|a l IH]; [reflexivity|].
  cbn [rev forallb]. rewrite forallb_app, IH. cbn [forallb].
  rewrite andb_true_r, andb_comm. reflexivity.
Qed.

(** ** The archive, whatever the base name *)

Lemma writestr_Ok : forall zipf name data z,
  writestr zipf name data = Ok z -> z = zipf ++ [(until_nul name, data)].
Proof.
  intros zipf name data z H. unfold writestr in H.
  destruct (existsb is_surrogate data || existsb is_surrogate (until_nul name)); [discriminate|].
  injection H as <-. reflexivity.
Qed.

Lemma map_fst_combine' : forall (A B : Type) (l1 : list A) (l2 : list B),
  length l1 = length l2 -> map fst (combine l1 l2) = l1.
Proof.
  intros A B l1. induction l1 as [|a l1 IH]; intros [|b l2] H; try discriminate; [reflexivity|].
  cbn [combine map fst]. rewrite IH; [reflexivity|]. cbn [List.length] in H. lia.
Qed.

Lemma map_snd_combine' : forall (A B : Type) (l1 : list A) (l2 : list B),
  length l1 = length l2 -> map snd (combine l1 l2) = l2.
Proof.
  intros A B l1. induction l1 as [|a l1 IH]; intros [|b l2] H; try discriminate; [reflexivity|].
  cbn [combine map snd]. rewrite IH; [reflexivity|]. cbn [List.length] in H. lia.
Qed.

Lemma pack_Ok : forall base xml meta quizzes idx zipf z,
  pack base xml meta idx quizzes zipf = Ok z ->
  exists fulls,
    Forall2 (fun quiz full => fill_quiz xml meta quiz = Ok full) quizzes fulls /\
    z = zipf ++ combine
          (map (fun j => until_nul (base ++ s2l "_" ++ str_nat (idx + j) ++ s2l ".xml"))
               (seq 0 (length quizzes)))
          fulls.
Proof.
  intros base xml meta quizzes. induction quizzes as [|q quizzes IH]; intros idx zipf z H.
  - cbn [pack] in H. injection H as <-. exists []. split; [constructor|].
    cbn. rewrite app_nil_r. reflexivity.
  - cbn [pack] in H. unfold bind at 1 in H.
    destruct (fill_quiz xml meta q) as [full|e] eqn:Hq; [|discriminate].
    unfold bind in H.
    destruct (writestr zipf _ full) as [z1|e] eqn:Hw; [|discriminate].
    apply writestr_Ok in Hw.
    destruct (IH (S idx) z1 z H) as [fulls [HF Hz]].
    exists (full :: fulls). split; [constructor; assumption|].
    rewrite Hz, Hw, <- app_assoc. f_equal.
    cbn [List.length seq map combine app]. rewrite Nat.add_0_r. f_equal.
    rewrite <- seq_shift, map_map. f_equal. apply map_ext. intros j.
    replace (idx + S j) with (S idx + j) by lia. reflexivity.
Qed.

Lemma until_nul_app_nul : forall s t, In 0%Z s -> until_nul (s ++ t) = until_nul s.
Proof.
  induction s as [|c s IH]; intros t H; [destruct H|].
  cbn [app until_nul]. destruct (Z.eqb_spec c 0) as [E|E]; [reflexivity|].
  destruct H as [H|H]; [congruence|]. rewrite (IH t H). reflexivity.
Qed.

Lemma file_name_inj : forall base a b,
  base ++ s2l "_" ++ str_nat a ++ s2l ".xml" = base ++ s2l "_" ++ str_nat b ++ s2l ".xml" ->
  a = b.
Proof.
  intros base a b H. apply app_inv_head in H. apply app_inv_head in H.
  apply app_inv_tail in H. exact (str_nat_inj a b H).
Qed.

Lemma generate_xmls_RFile_pack : forall cfg fs req mt dn zipf,
  generate_xmls cfg fs req = RFile mt dn zipf ->
  exists data xml meta v quizzes,
    files_quiz_json req = Some (UJson data) /\
    fs (XML_TEMPLATE_PATH cfg) = FContent xml /\
    fs (META_BLOCK_PATH cfg) = FContent meta /\
    py_dict_get data (s2l "quizzes") (JArr []) = Ok v /\
    py_iter v = Ok quizzes /\
    pack (strip (form_get_base_name req)) xml meta 1 quizzes [] = Ok zipf.
Proof.
  intros cfg fs req mt dn zipf H.
  destruct (generate_xmls_RFile _ _ _ _ _ _ H) as (data & xml & meta & Hf & _ & Hx & Hm & Hp).
  unfold package_response in Hp.
  destruct (py_dict_get data (s2l "quizzes") (JArr [])) as [v|e] eqn:Hv;
    cbn [bind] in Hp; [|discriminate].
  destruct (py_iter v) as [quizzes|e] eqn:Hi; cbn [bind] in Hp; [|discriminate].
  destruct (pack _ xml meta 1 quizzes []) as [z|e] eqn:Hpk; [|discriminate].
  injection Hp as _ _ <-.
  exists data, xml, meta, v, quizzes. repeat split; assumption.
Qed.

Lemma status_of_aborts : forall r,
  (forall code d, r = RAbort code d -> code = 400%Z \/ code = 500%Z) ->
  In (status r) [200; 400; 500]%Z /\
  (status r = 200%Z <-> exists mt dn z, r = RFile mt dn z).
Proof.
  intros [mt dn z|code d|e] H; cbn [status].
  - split; [left; reflexivity|]. split; [intros _; eauto|reflexivity].
  - destruct (H code d eq_refl) as [ -> | -> ].
    + split; [right; left; reflexivity|]. split; [discriminate|intros (? & ? & ? & ?); discriminate].
    + split; [right; right; left; reflexivity|].
      split; [discriminate|intros (? & ? & ? & ?); discriminate].
  - split; [right; right; left; reflexivity|].
    split; [discriminate|intros (? & ? & ? & ?); discriminate].
Qed.

(** ** Required keys *)

Lemma bind_Ok : forall (A B : Type) (m : res A) (f : A -> res B) b,
  bind m f = Ok b -> exists a, m = Ok a /\ f a = Ok b.
Proof. intros A B [a|e] f b H; [exists a; split; [reflexivity|exact H]|discriminate]. Qed.

Lemma lacks_getitem : forall v k, lacks v k -> py_getitem v k = Err (KeyError k).
Proof. intros [| | | | |kvs] k H; try contradiction. cbn [py_getitem]. cbn [lacks] in H. rewrite H. reflexivity. Qed.

Lemma fill_questions_Ok_In : forall qs qnum c r,
  fill_questions qnum qs c = Ok r -> forall q, In q qs ->
  (exists x, py_getitem q (s2l "QUESTION") = Ok x) /\
  (exists x, py_getitem q (s2l "ANSWERS") = Ok x) /\
  (exists x, py_getitem q (s2l "CORRECT") = Ok x).
Proof.
  induction qs as [|q0 qs IH]; intros qnum c r H q Hin; [destruct Hin|].
  cbn [fill_questions] in H.
  apply bind_Ok in H as [t [Ht H]]. apply bind_Ok in H as [t' [_ H]].
  apply bind_Ok in H as [ans [Ha H]]. apply bind_Ok in H as [ans' [_ H]].
  apply bind_Ok in H as [c' [_ H]]. apply bind_Ok in H as [cor [Hc H]].
  destruct Hin as [<-|Hin].
  - split; [eauto|split; eauto].
  - exact (IH _ _ _ H q Hin).
Qed.

Lemma fill_quiz_Ok_keys : forall xml meta quiz full,
  fill_quiz xml meta quiz = Ok full ->
  (exists x, py_getitem quiz (s2l "TITLE") = Ok x) /\
  (exists x, py_getitem quiz (s2l "QUESTIONS") = Ok x) /\
  (exists x, py_getitem quiz (s2l "id") = Ok x) /\
  (forall qsv qs, py_getitem quiz (s2l "QUESTIONS") = Ok qsv -> py_iter qsv = Ok qs ->
   forall q, In q qs ->
   (exists x, py_getitem q (s2l "QUESTION") = Ok x) /\
   (exists x, py_getitem q (s2l "ANSWERS") = Ok x) /\
   (exists x, py_getitem q (s2l "CORRECT") = Ok x)).
Proof.
  intros xml meta quiz full H. unfold fill_quiz in H.
  apply bind_Ok in H as [c [Hc H]]. apply bind_Ok in H as [idv [Hid _]].
  unfold fill_content in Hc. cbv zeta in Hc.
  apply bind_Ok in Hc as [t [Ht Hc]]. apply bind_Ok in Hc as [t' [_ Hc]].
  apply bind_Ok in Hc as [qsv0 [Hq Hc]]. apply bind_Ok in Hc as [qs0 [Hi Hc]].
  split; [eauto|]. split; [eauto|]. split; [eauto|].
  intros qsv qs Hq' Hi' q Hin. rewrite Hq in Hq'. injection Hq' as <-.
  rewrite Hi in Hi'. injection Hi' as <-.
  exact (fill_questions_Ok_In _ _ _ _ Hc q Hin).
Qed.

Lemma missing_required_fill_fails : forall xml meta quiz,
  missing_required quiz -> exists e, fill_quiz xml meta quiz = Err e.
Proof.
  intros xml meta quiz Hm.
  destruct (fill_quiz xml meta quiz) as [full|e] eqn:E; [exfalso|eauto].
  destruct (fill_quiz_Ok_keys _ _ _ _ E) as ([x1 H1] & [x2 H2] & [x3 H3] & Hqs).
  destruct Hm as [L|[L|[L|(qsv & qs & q & Hq & Hi & Hin & L)]]];
    try (rewrite (lacks_getitem _ _ L) in *; discriminate).
  destruct (Hqs qsv qs Hq Hi q Hin) as ([y1 G1] & [y2 G2] & [y3 G3]).
  destruct L as [L|[L|L]]; rewrite (lacks_getitem _ _ L) in *; discriminate.
Qed.

Lemma Forall2_in_left : forall (A B : Type) (R : A -> B -> Prop) l1 l2,
  Forall2 R l1 l2 -> forall x, In x l1 -> exists y, R x y.
Proof.
  intros A B R l1 l2 HF. induction HF as [|a b l1 l2 Hab HF IH]; intros x Hin; [destruct Hin|].
  destruct Hin as [<-|Hin]; [exists b; exact Hab|exact (IH x Hin)].
Qed.


(** * The claims *)

(** C1. For a template whose text outside its placeholders has no ['{'],
    [markRight] with [CORRECT = k], [0 <= k <= 3], resolves the four
    placeholders [{{Option_<qnum>1}}] .. [{{Option_<qnum>4}}] (and no
    other): the one at position [k + 1] becomes [true], the three others
    [false]. The number of answers plays no part. *)
Theorem markRight_resolves_options : forall ts qnum k,
  wf ts = true -> (0 <= k <= 3)%Z ->
  markRight (render ts) qnum (JNum k)
    = render (map (option_resolution qnum (Z.to_nat k + 1)) ts) /\
  (forall i, 1 <= i <= 4 ->
     option_resolution qnum (Z.to_nat k + 1) (Ph (opt_name qnum i))
       = Lit (if Nat.eqb i (Z.to_nat k + 1) then s2l "true" else s2l "false")).
Proof.
  intros ts qnum k Hw Hk. split.
  - rewrite markRight_chain, replace_chain_render
      by (apply option_steps_ok || exact Hw).
    f_equal. apply map_ext. intros t. apply option_steps_resolution. exact Hk.
  - intros i Hi. unfold option_resolution.
    assert (Hk' : (Z.to_nat k <= 3)%nat)
      by (change 3%nat with (Z.to_nat 3); apply Z2Nat.inj_le; lia).
    rewrite opt_name_eqb by lia. rewrite Nat.eqb_sym.
    destruct (Nat.eqb i (Z.to_nat k + 1)); [reflexivity|].
    cbn [existsb]. rewrite !opt_name_eqb by lia.
    assert (i = 1 \/ i = 2 \/ i = 3 \/ i = 4) as [ -> | [ -> | [ -> | -> ]]] by lia;
      reflexivity.
Qed.

Lemma markRight_resolves_options_witness :
  wf [Lit (s2l "<o>"); Ph (opt_name 1 2); Lit (s2l "</o>")] = true /\ (0 <= 1 <= 3)%Z /\
  markRight (render [Lit (s2l "<o>"); Ph (opt_name 1 2); Lit (s2l "</o>")]) 1 (JNum 1)
    = s2l "<o>true</o>".
Proof.
  split; [reflexivity|]. split; [lia|].
  destruct (markRight_resolves_options [Lit (s2l "<o>"); Ph (opt_name 1 2); Lit (s2l "</o>")]
              1 1 eq_refl ltac:(lia)) as [-> _].
  vm_compute. reflexivity.
Defined.

(** C4 (counterexample). Answer A of question 1 is the text
    [{{ANSWER_1B}}]: the later replacement for answer B rewrites it, and the
    placeholder [{{ANSWER_1A}}] ends up as the text of answer B. *)
Lemma fill_answer_rescanned :
  fill_quiz (s2l "{{ANSWER_1A}}") [] quiz_answer_rescanned = Ok (s2l "x").
Proof. vm_compute. reflexivity. Qed.

(** C4 (amended). For a template whose text outside its placeholders has no
    ['{'], and quiz data (title, question texts, answers) with no ['{'],
    questions of at most 58 answers: in the filled quiz template, every
    placeholder [{{ANSWER_<qnum><letter>}}] with letter ['A' + anum - 1] of
    a present answer becomes the answer text, and that of an absent answer
    slot stays as it is. *)
Theorem fill_quiz_answers : forall ts meta quiz title qs gs idv,
  wf ts = true -> quiz_shape quiz title qs gs idv -> data_no_open title gs ->
  Forall (fun g => length (q_answers g) <= 58) gs ->
  exists R : tok -> tok,
    fill_quiz (render ts) meta quiz
      = Ok (render (map R ts) ++ py_replace meta (s2l "{{ID}}") (py_str idv)) /\
    (forall s, R (Lit s) = Lit s) /\
    (forall qnum anum g, 1 <= qnum -> 1 <= anum -> nth_error gs (qnum - 1) = Some g ->
       R (Ph (answer_name qnum anum))
       = match nth_error (q_answers g) (anum - 1) with
         | Some ans => Lit ans
         | None => Ph (answer_name qnum anum)
         end).
Proof.
  intros ts meta quiz title qs gs idv Hw Hs Hd Hl.
  exists (tok_chain (quiz_steps title gs)). split; [|split].
  - eapply fill_quiz_tokens; eassumption.
  - intros s. apply tok_chain_Lit.
  - intros qnum anum g Hq Ha Hg. rewrite tok_chain_Ph.
    apply first_rep_quiz_answer; assumption.
Qed.

Lemma fill_quiz_answers_witness :
  wf template_abc = true /\
  quiz_shape quiz_abc (s2l "T") [question_abc_json] [question_abc] (JNum 7) /\
  data_no_open (s2l "T") [question_abc] /\
  Forall (fun g => length (q_answers g) <= 58) [question_abc] /\
  fill_quiz (render template_abc) (s2l "<m/>") quiz_abc
    = Ok (s2l "<a>a,{{ANSWER_1D}}<m/>").
Proof.
  assert (H1 : wf template_abc = true) by reflexivity.
  assert (H2 : quiz_shape quiz_abc (s2l "T") [question_abc_json] [question_abc] (JNum 7)).
  { split; [reflexivity|]. split; [reflexivity|]. split; [reflexivity|].
    split; repeat constructor; vm_compute; congruence. }
  assert (H3 : data_no_open (s2l "T") [question_abc]) by (split; repeat constructor).
  assert (H4 : Forall (fun g => length (q_answers g) <= 58) [question_abc])
    by (repeat constructor; cbn; lia).
  split; [exact H1|]. split; [exact H2|]. split; [exact H3|]. split; [exact H4|].
  destruct (fill_quiz_answers template_abc (s2l "<m/>") quiz_abc (s2l "T")
              [question_abc_json] [question_abc] (JNum 7) H1 H2 H3 H4)
    as [R [Heq [HL HA]]].
  rewrite Heq. unfold template_abc. cbn [map].
  rewrite (HA 1 1 question_abc), (HA 1 4 question_abc) by (reflexivity || lia).
  rewrite !HL. vm_compute. reflexivity.
Defined.

(** C7 (counterexample). The template [{{{{TITLE}}}}] and the plain title
    [TITLE]: the replacement joins the braces around it into a new
    [{{TITLE}}], which is in the output. *)
Lemma fill_title_rebuilt :
  fill_quiz (s2l "{{{{TITLE}}}}") [] quiz_plain_title = Ok (s2l "{{TITLE}}").
Proof. vm_compute. reflexivity. Qed.

(** C7 (amended). For a template whose text outside its placeholders has no
    ['{'], and quiz data (title, question texts, answers) with no ['{']:
    every [{{TITLE}}] of the quiz template becomes the title, and no
    [{{TITLE}}] remains in the filled quiz template; the metadata block is
    only filled for [{{ID}}]. *)
Theorem fill_quiz_title : forall ts meta quiz title qs gs idv,
  wf ts = true -> quiz_shape quiz title qs gs idv -> data_no_open title gs ->
  Forall (fun g => length (q_answers g) <= 58) gs ->
  exists R : tok -> tok,
    fill_quiz (render ts) meta quiz
      = Ok (render (map R ts) ++ py_replace meta (s2l "{{ID}}") (py_str idv)) /\
    (forall s, R (Lit s) = Lit s) /\
    R (Ph (s2l "TITLE")) = Lit title /\
    occursb (s2l "{{TITLE}}") (render (map R ts)) = false.
Proof.
  intros ts meta quiz title qs gs idv Hw Hs Hd Hl.
  assert (Hok : steps_ok (quiz_steps title gs) = true) by (apply quiz_steps_ok; assumption).
  assert (HT : tok_chain (quiz_steps title gs) (Ph (s2l "TITLE")) = Lit title).
  { rewrite tok_chain_Ph. unfold quiz_steps. cbn [first_rep].
    rewrite pystr_eqb_refl. reflexivity. }
  exists (tok_chain (quiz_steps title gs)). split; [|split; [|split]].
  - eapply fill_quiz_tokens; eassumption.
  - intros s. apply tok_chain_Lit.
  - exact HT.
  - change (s2l "{{TITLE}}") with (ph (s2l "TITLE")).
    apply occursb_render; [reflexivity | apply wf_chain; assumption |].
    apply Forall_forall. intros x Hx. apply in_map_iff in Hx as [[s|m] [<- _]].
    + rewrite tok_chain_Lit. discriminate.
    + rewrite tok_chain_Ph. destruct (first_rep_cases m (quiz_steps title gs)) as [E|[r E]];
        rewrite E; [|discriminate].
      intros H. injection H as ->. rewrite <- tok_chain_Ph, HT in E. discriminate.
Qed.

Lemma fill_quiz_title_witness :
  wf [Lit (s2l "<t>"); Ph (s2l "TITLE"); Lit (s2l "</t>")] = true /\
  quiz_shape quiz_abc (s2l "T") [question_abc_json] [question_abc] (JNum 7) /\
  data_no_open (s2l "T") [question_abc] /\
  Forall (fun g => length (q_answers g) <= 58) [question_abc] /\
  fill_quiz (render [Lit (s2l "<t>"); Ph (s2l "TITLE"); Lit (s2l "</t>")]) [] quiz_abc
    = Ok (s2l "<t>T</t>").
Proof.
  assert (H1 : wf [Lit (s2l "<t>"); Ph (s2l "TITLE"); Lit (s2l "</t>")] = true)
    by reflexivity.
  assert (H2 : quiz_shape quiz_abc (s2l "T") [question_abc_json] [question_abc] (JNum 7)).
  { split; [reflexivity|]. split; [reflexivity|]. split; [reflexivity|].
    split; repeat constructor; vm_compute; congruence. }
  assert (H3 : data_no_open (s2l "T") [question_abc]) by (split; repeat constructor).
  assert (H4 : Forall (fun g => length (q_answers g) <= 58) [question_abc])
    by (repeat constructor; cbn; lia).
  split; [exact H1|]. split; [exact H2|]. split; [exact H3|]. split; [exact H4|].
  destruct (fill_quiz_title [Lit (s2l "<t>"); Ph (s2l "TITLE"); Lit (s2l "</t>")] []
              quiz_abc (s2l "T") [question_abc_json] [question_abc] (JNum 7) H1 H2 H3 H4)
    as [R [Heq [HL [HT _]]]].
  rewrite Heq. cbn [map]. rewrite !HL, HT. vm_compute. reflexivity.
Defined.

(** C3 (counterexample). A title holding the text [{{QUESTION_1}}] is
    scanned by the replacement of question 1: the output is the question
    text, not the title verbatim. *)
Lemma fill_title_rescanned :
  fill_quiz (s2l "{{TITLE}}") [] quiz_title_placeholder = Ok (s2l "Q").
Proof. vm_compute. reflexivity. Qed.

(** C3 (amended). One replacement inserts its value verbatim: the value is
    never scanned by that replacement, whatever it contains. But the filler
    applies its replacements one after another to one working copy (the
    title, then for each question its text, its answers and its four Option
    marks), so each later replacement scans the values inserted before it;
    the metadata block is filled separately, by one replacement of
    [{{ID}}]. *)
Theorem fill_quiz_sequential :
  (forall ts n r, wf ts = true -> brace_free n = true ->
     py_replace (render ts) (ph n) r = render (map (tfill n r) ts)) /\
  (forall tmpl meta quiz title qs gs idv,
     quiz_shape quiz title qs gs idv ->
     fill_quiz tmpl meta quiz
       = Ok (replace_chain (quiz_steps title gs) tmpl
             ++ py_replace meta (s2l "{{ID}}") (py_str idv))).
Proof.
  split.
  - intros ts n r Hw Hn. apply replace_render; assumption.
  - intros. eapply fill_quiz_chain; eassumption.
Qed.

Lemma fill_quiz_sequential_witness :
  py_replace (render [Lit (s2l "a"); Ph (s2l "X"); Lit (s2l "b")]) (ph (s2l "X"))
             (s2l "{{X}}")
    = s2l "a{{X}}b" /\
  fill_quiz (s2l "{{TITLE}}") [] quiz_title_placeholder = Ok (s2l "Q").
Proof.
  split.
  - rewrite (proj1 fill_quiz_sequential) by reflexivity. vm_compute. reflexivity.
  - rewrite (proj2 fill_quiz_sequential (s2l "{{TITLE}}") [] quiz_title_placeholder
               (s2l "{{QUESTION_1}}")
               [JObj [(s2l "QUESTION", JStr (s2l "Q")); (s2l "ANSWERS", JArr []);
                      (s2l "CORRECT", JNum 0)]]
               [{| q_text := s2l "Q"; q_answers := []; q_correct := JNum 0 |}] (JNum 1)).
    + vm_compute. reflexivity.
    + split; [reflexivity|]. split; [reflexivity|]. split; [reflexivity|].
      split; repeat constructor; vm_compute; congruence.
Defined.

(** C6. The checks of [generate_xmls], in the order of the code: a missing
    [quiz_json] part, a missing or blank [base_name] and an upload that
    does not parse give 400 (the last with the parser's text); a template
    file not found on disk gives 500; once all pass, the response is the
    one of the archive stage. *)
Theorem generate_xmls_checks : forall cfg fs req,
  (files_quiz_json req = None ->
   generate_xmls cfg fs req = RAbort 400 (s2l "No JSON file part")) /\
  (forall u, files_quiz_json req = Some u ->
   (form_base_name req = None \/ exists b, form_base_name req = Some b /\ strip b = []) ->
   generate_xmls cfg fs req = RAbort 400 (s2l "Base filename is required")) /\
  (forall err, files_quiz_json req = Some (UInvalid err) ->
   strip (form_get_base_name req) <> [] ->
   generate_xmls cfg fs req = RAbort 400 (s2l "Invalid JSON: " ++ err)) /\
  (forall data, files_quiz_json req = Some (UJson data) ->
   strip (form_get_base_name req) <> [] ->
   fs (XML_TEMPLATE_PATH cfg) = FNotFound ->
   generate_xmls cfg fs req = RAbort 500 (not_found_msg (XML_TEMPLATE_PATH cfg))) /\
  (forall data xml, files_quiz_json req = Some (UJson data) ->
   strip (form_get_base_name req) <> [] ->
   fs (XML_TEMPLATE_PATH cfg) = FContent xml ->
   fs (META_BLOCK_PATH cfg) = FNotFound ->
   generate_xmls cfg fs req = RAbort 500 (not_found_msg (META_BLOCK_PATH cfg))) /\
  (forall data xml meta, files_quiz_json req = Some (UJson data) ->
   strip (form_get_base_name req) <> [] ->
   fs (XML_TEMPLATE_PATH cfg) = FContent xml ->
   fs (META_BLOCK_PATH cfg) = FContent meta ->
   generate_xmls cfg fs req = package_response data (strip (form_get_base_name req)) xml meta).
Proof.
  intros cfg fs req. split; [|split; [|split; [|split; [|split]]]].
  - intros Hf. unfold generate_xmls. rewrite Hf. reflexivity.
  - intros u Hf Hb.
    assert (E : strip (form_get_base_name req) = []).
    { unfold form_get_base_name. destruct Hb as [ -> | [b [ -> Hs]]]; [reflexivity|exact Hs]. }
    unfold generate_xmls. rewrite Hf, E. reflexivity.
  - intros err Hf Hb. unfold generate_xmls. rewrite Hf.
    destruct (strip (form_get_base_name req)); [contradiction|reflexivity].
  - intros data Hf Hb Hx. unfold generate_xmls. rewrite Hf.
    destruct (strip (form_get_base_name req)); [contradiction|].
    rewrite Hx. reflexivity.
  - intros data xml Hf Hb Hx Hm. unfold generate_xmls. rewrite Hf.
    destruct (strip (form_get_base_name req)); [contradiction|].
    rewrite Hx, Hm. reflexivity.
  - intros data xml meta. apply generate_xmls_checks_pass.
Qed.

Lemma generate_xmls_checks_witness :
  generate_xmls default_config (fs_templates [] []) (post JNull (s2l "  "))
    = RAbort 400 (s2l "Base filename is required").
Proof.
  apply (proj1 (proj2 (generate_xmls_checks default_config (fs_templates [] [])
                         (post JNull (s2l "  ")))) (UJson JNull)).
  - reflexivity.
  - right. exists (s2l "  "). split; reflexivity.
Defined.

(** C2 (counterexample). A quiz record without [TITLE]: [quiz["TITLE"]]
    raises [KeyError], nothing catches it, and Flask answers 500, not
    400. *)
Lemma missing_title_500 :
  generate_xmls default_config (fs_templates (s2l "<t>{{TITLE}}</t>") [])
    (post data_no_title (s2l "q")) = RUncaught (KeyError (s2l "TITLE")) /\
  status (generate_xmls default_config (fs_templates (s2l "<t>{{TITLE}}</t>") [])
            (post data_no_title (s2l "q"))) = 500%Z.
Proof. vm_compute. split; reflexivity. Qed.

(** C2 (amended). A quiz record missing a required key cannot be filled:
    the filler raises an exception (a [KeyError], or an earlier error on
    another field). When the checks pass and such a record is among the
    records of [quizzes], the exception escapes [generate_xmls]: the
    response is a 500 server error, with no archive. *)
Theorem generate_xmls_missing_key_500 :
  (forall xml meta quiz, missing_required quiz ->
   exists e, fill_quiz xml meta quiz = Err e) /\
  (forall cfg fs req data xml meta v quizzes quiz,
   files_quiz_json req = Some (UJson data) ->
   strip (form_get_base_name req) <> [] ->
   fs (XML_TEMPLATE_PATH cfg) = FContent xml ->
   fs (META_BLOCK_PATH cfg) = FContent meta ->
   py_dict_get data (s2l "quizzes") (JArr []) = Ok v ->
   py_iter v = Ok quizzes ->
   In quiz quizzes -> missing_required quiz ->
   exists e, generate_xmls cfg fs req = RUncaught e /\
             status (generate_xmls cfg fs req) = 500%Z).
Proof.
  split.
  - exact missing_required_fill_fails.
  - intros cfg fs req data xml meta v quizzes quiz Hf Hb Hx Hm Hv Hi Hin Hmiss.
    rewrite (generate_xmls_checks_pass cfg fs req data xml meta Hf Hb Hx Hm).
    unfold package_response. rewrite Hv. cbn [bind]. rewrite Hi. cbn [bind].
    destruct (pack _ xml meta 1 quizzes []) as [z|e] eqn:Hp.
    + exfalso. destruct (pack_Ok _ _ _ _ _ _ _ Hp) as [fulls [HF _]].
      destruct (Forall2_in_left _ _ _ _ _ HF quiz Hin) as [full Hfull].
      destruct (missing_required_fill_fails xml meta quiz Hmiss) as [e He].
      rewrite Hfull in He. discriminate.
    + exists e. split; reflexivity.
Qed.

Lemma generate_xmls_missing_key_500_witness :
  exists e, generate_xmls default_config (fs_templates (s2l "<t>{{TITLE}}</t>") [])
              (post data_no_correct (s2l "q")) = RUncaught e /\
            status (generate_xmls default_config (fs_templates (s2l "<t>{{TITLE}}</t>") [])
                      (post data_no_correct (s2l "q"))) = 500%Z.
Proof.
  apply (proj2 generate_xmls_missing_key_500 default_config
           (fs_templates (s2l "<t>{{TITLE}}</t>") []) (post data_no_correct (s2l "q"))
           data_no_correct (s2l "<t>{{TITLE}}</t>") [] (JArr [quiz_no_correct])
           [quiz_no_correct] quiz_no_correct);
    try reflexivity.
  - vm_compute. discriminate.
  - left. reflexivity.
  - right. right. right. exists (JArr [question_no_correct]), [question_no_correct], question_no_correct.
    split; [reflexivity|]. split; [reflexivity|]. split; [left; reflexivity|].
    right. right. reflexivity.
Defined.







(** C8. Two runs with the same parsed upload, the same [base_name] and the
    same template contents (wherever the templates are stored) give the
    same response, hence the same archive entries. *)
Theorem generate_xmls_deterministic : forall cfg1 cfg2 fs1 fs2 req1 req2 xml meta,
  files_quiz_json req1 = files_quiz_json req2 ->
  form_base_name req1 = form_base_name req2 ->
  fs1 (XML_TEMPLATE_PATH cfg1) = FContent xml ->
  fs2 (XML_TEMPLATE_PATH cfg2) = FContent xml ->
  fs1 (META_BLOCK_PATH cfg1) = FContent meta ->
  fs2 (META_BLOCK_PATH cfg2) = FContent meta ->
  generate_xmls cfg1 fs1 req1 = generate_xmls cfg2 fs2 req2.
Proof.
  intros cfg1 cfg2 fs1 fs2 req1 req2 xml meta Hf Hb Hx1 Hx2 Hm1 Hm2.
  unfold generate_xmls, form_get_base_name.
  rewrite Hf, Hb, Hx1, Hx2, Hm1, Hm2. reflexivity.
Qed.

Lemma generate_xmls_deterministic_witness :
  generate_xmls default_config (fs_templates (s2l "<t>{{TITLE}}</t>") (s2l "<id>{{ID}}</id>"))
    (post data_one (s2l "q"))
  = generate_xmls {| XML_TEMPLATE_PATH := s2l "t.xml"; META_BLOCK_PATH := s2l "m.xml" |}
      (fun path => if pystr_eqb path (s2l "t.xml") then FContent (s2l "<t>{{TITLE}}</t>")
                   else FContent (s2l "<id>{{ID}}</id>"))
      {| files_quiz_json := Some (UJson data_one); form_base_name := Some (s2l "q");
         form_other := [(s2l "submit", s2l "Generate")] |}.
Proof.
  apply (generate_xmls_deterministic _ _ _ _ _ _
           (s2l "<t>{{TITLE}}</t>") (s2l "<id>{{ID}}</id>")); reflexivity.
Defined.

(** C10. [base_name] is used only through [strip]: the response is the one
    for the stripped value, a blank value is answered as a missing one,
    and the stripped value neither starts nor ends with whitespace. *)
Theorem generate_xmls_strips_base_name : forall cfg fs req b,
  form_base_name req = Some b ->
  generate_xmls cfg fs req
    = generate_xmls cfg fs {| files_quiz_json := files_quiz_json req;
                              form_base_name := Some (strip b);
                              form_other := form_other req |} /\
  (strip b = [] ->
   generate_xmls cfg fs req
     = generate_xmls cfg fs {| files_quiz_json := files_quiz_json req;
                               form_base_name := None;
                               form_other := form_other req |}) /\
  (forall c rest, strip b = c :: rest -> py_isspace c = false) /\
  (forall c rest, strip b = rest ++ [c] -> py_isspace c = false).
Proof.
  intros cfg fs req b Hb. split; [|split; [|split]].
  - unfold generate_xmls, form_get_base_name. cbn [files_quiz_json form_base_name].
    rewrite Hb, strip_idem. reflexivity.
  - intros Hs. unfold generate_xmls, form_get_base_name.
    cbn [files_quiz_json form_base_name]. rewrite Hb, Hs. reflexivity.
  - exact (strip_head b).
  - exact (strip_last b).
Qed.

Lemma generate_xmls_strips_base_name_witness :
  generate_xmls default_config (fs_templates (s2l "<t>{{TITLE}}</t>") [])
    (post data_one (s2l " q "))
  = generate_xmls default_config (fs_templates (s2l "<t>{{TITLE}}</t>") [])
      (post data_one (s2l "q")).
Proof.
  exact (proj1 (generate_xmls_strips_base_name default_config
                  (fs_templates (s2l "<t>{{TITLE}}</t>") []) (post data_one (s2l " q "))
                  (s2l " q ") eq_refl)).
Defined.

(** * Further properties of the code *)

(** [markRight] with any value of [CORRECT]: on a template whose text
    outside its placeholders has no ['{'], placeholder
    [{{Option_<qnum><i>}}] (i = 1..4) becomes [true] exactly when
    [(i - 1) == CORRECT] holds in Python ([True] counts as 1, [False] as 0,
    a value out of range or of another type marks none), and every other
    token is kept. *)
Theorem markRight_any_correct : forall ts qnum v,
  wf ts = true ->
  exists R : tok -> tok,
    markRight (render ts) qnum v = render (map R ts) /\
    (forall s, R (Lit s) = Lit s) /\
    (forall i, 1 <= i <= 4 ->
       R (Ph (opt_name qnum i))
       = Lit (if py_eq_int v (Z.of_nat i - 1) then s2l "true" else s2l "false")) /\
    (forall m, (forall i, 1 <= i <= 4 -> m <> opt_name qnum i) -> R (Ph m) = Ph m).
Proof.
  intros ts qnum v Hw. exists (tok_chain (option_steps qnum v)).
  split; [|split; [|split]].
  - rewrite markRight_chain. apply replace_chain_render; [apply option_steps_ok|exact Hw].
  - apply tok_chain_Lit.
  - intros i Hi. rewrite tok_chain_Ph. unfold option_steps. cbn [map first_rep].
    assert (i = 1 \/ i = 2 \/ i = 3 \/ i = 4) as [ -> | [ -> | [ -> | -> ]]] by lia;
      rewrite !opt_name_eqb by lia; cbn [Nat.eqb]; reflexivity.
  - intros m Hm. rewrite tok_chain_Ph. unfold option_steps. cbn [map first_rep].
    rewrite !pystr_eqb_neq
      by (let E := fresh in intros E; refine (Hm _ _ (eq_sym E)); lia).
    reflexivity.
Qed.

Lemma markRight_any_correct_witness :
  wf [Lit (s2l "<o>"); Ph (opt_name 1 1); Ph (opt_name 1 2); Ph (opt_name 2 1)] = true /\
  markRight (render [Lit (s2l "<o>"); Ph (opt_name 1 1); Ph (opt_name 1 2); Ph (opt_name 2 1)])
    1 (JBool true)
  = s2l "<o>falsetrue{{Option_21}}".
Proof.
  split; [reflexivity|].
  destruct (markRight_any_correct
              [Lit (s2l "<o>"); Ph (opt_name 1 1); Ph (opt_name 1 2); Ph (opt_name 2 1)]
              1 (JBool true) eq_refl) as (R & -> & HL & HO & HK).
  cbn [map]. rewrite HL, (HO 1 ltac:(lia)), (HO 2 ltac:(lia)).
  rewrite (HK (opt_name 2 1)).
  - vm_compute. reflexivity.
  - intros i Hi E.
    assert (i = 1 \/ i = 2 \/ i = 3 \/ i = 4) as [ -> | [ -> | [ -> | -> ]]] by lia;
      vm_compute in E; discriminate E.
Defined.

(** [markRight] leaves a text unchanged when none of the four placeholders
    [{{Option_<qnum>1}}] .. [{{Option_<qnum>4}}] occurs in it. *)
Theorem markRight_no_options : forall c qnum v,
  (forall i, 1 <= i <= 4 -> occursb (ph (opt_name qnum i)) c = false) ->
  markRight c qnum v = c.
Proof.
  intros c qnum v H. rewrite markRight_chain. unfold replace_chain, option_steps.
  cbn [map fold_left fst snd].
  rewrite (py_replace_absent c) by (apply ph_not_nil || apply H; lia).
  rewrite (py_replace_absent c) by (apply ph_not_nil || apply H; lia).
  rewrite (py_replace_absent c) by (apply ph_not_nil || apply H; lia).
  rewrite (py_replace_absent c) by (apply ph_not_nil || apply H; lia).
  reflexivity.
Qed.

Lemma markRight_no_options_witness :
  (forall i, 1 <= i <= 4 -> occursb (ph (opt_name 1 i)) (s2l "<x>{{Option_21}}</x>") = false) /\
  markRight (s2l "<x>{{Option_21}}</x>") 1 (JNum 0) = s2l "<x>{{Option_21}}</x>".
Proof.
  assert (H : forall i, 1 <= i <= 4 ->
              occursb (ph (opt_name 1 i)) (s2l "<x>{{Option_21}}</x>") = false).
  { intros i Hi.
    assert (i = 1 \/ i = 2 \/ i = 3 \/ i = 4) as [ -> | [ -> | [ -> | -> ]]] by lia;
      vm_compute; reflexivity. }
  split; [exact H|]. exact (markRight_no_options _ 1 (JNum 0) H).
Defined.

(** The answer letters are [chr(64 + anum)]: when every answer is a
    string, [fill_answers] fails exactly when the last letter is past
    [chr]'s range (code point 1114111), with [ValueError], and succeeds
    otherwise. *)
Theorem fill_answers_chr_range : forall qnum anum answers c,
  Forall (fun a => exists s, a = JStr s) answers ->
  (answers <> [] /\ (1114112 < Z.of_nat (64 + anum + length answers))%Z ->
   fill_answers qnum anum answers c = Err ValueError) /\
  (~ (answers <> [] /\ (1114112 < Z.of_nat (64 + anum + length answers))%Z) ->
   exists r, fill_answers qnum anum answers c = Ok r).
Proof.
  intros qnum anum answers. revert anum.
  induction answers as [|a rest IH]; intros anum c HF.
  - split; [intros [H _]; contradiction|intros _; eexists; reflexivity].
  - inversion HF as [|a' rest' [s Hs] HF']; subst a' rest' a.
    cbn [fill_answers]. unfold py_chr.
    destruct (Z.leb_spec (Z.of_nat (64 + anum)) 1114111) as [Hle|Hgt].
    + cbn [bind as_str].
      destruct (IH (S anum) (py_replace c (s2l "{{ANSWER_" ++ str_nat qnum
                   ++ [Z.of_nat (64 + anum)] ++ s2l "}}") s) HF') as [IH1 IH2].
      cbn [List.length] in *. split.
      * intros [_ Hc]. apply IH1. split; [|lia].
        destruct rest as [|x r]; [cbn [List.length] in Hc; lia|discriminate].
      * intros Hn. apply IH2. intros [Hne Hc]. apply Hn. split; [discriminate|lia].
    + cbn [bind]. split; [intros _; reflexivity|].
      intros Hn. exfalso. apply Hn. split; [discriminate|cbn [List.length]; lia].
Qed.

Lemma fill_answers_chr_range_witness :
  fill_answers 1 1114047 [JStr (s2l "a"); JStr (s2l "b")] [] = Err ValueError.
Proof.
  apply (proj1 (fill_answers_chr_range 1 1114047 [JStr (s2l "a"); JStr (s2l "b")] []
                  ltac:(repeat constructor; eexists; reflexivity))).
  split; [discriminate|vm_compute; reflexivity].
Defined.

(** A value of the wrong type is refused with [TypeError]: a [TITLE] that
    is not a string, or an answer that is not a string (its letter being
    in range). *)
Theorem fill_type_errors :
  (forall xml meta quiz v, py_getitem quiz (s2l "TITLE") = Ok v ->
   (forall s, v <> JStr s) -> fill_quiz xml meta quiz = Err TypeError) /\
  (forall qnum anum a rest c, (Z.of_nat (64 + anum) <= 1114111)%Z ->
   (forall s, a <> JStr s) -> fill_answers qnum anum (a :: rest) c = Err TypeError).
Proof.
  split.
  - intros xml meta quiz v H Hv. unfold fill_quiz, fill_content. rewrite H.
    cbn [bind]. destruct v; try reflexivity. exfalso. eapply Hv. reflexivity.
  - intros qnum anum a rest c Hr Ha. cbn [fill_answers]. unfold py_chr.
    rewrite (proj2 (Z.leb_le _ _) Hr). cbn [bind].
    destruct a; try reflexivity. exfalso. eapply Ha. reflexivity.
Qed.

Lemma fill_type_errors_witness :
  fill_quiz [] [] (JObj [(s2l "TITLE", JNum 3)]) = Err TypeError /\
  fill_answers 1 1 [JNum 3] [] = Err TypeError.
Proof.
  split.
  - apply (proj1 fill_type_errors [] [] (JObj [(s2l "TITLE", JNum 3)]) (JNum 3)).
    + reflexivity.
    + intros s. discriminate.
  - apply (proj2 fill_type_errors 1 1 (JNum 3) [] []).
    + vm_compute. discriminate.
    + intros s. discriminate.
Defined.



(** The response of [generate_xmls] always has status 200, 400 or 500, and
    it is 200 exactly when an archive is sent. *)
Theorem generate_xmls_status : forall cfg fs req,
  In (status (generate_xmls cfg fs req)) [200; 400; 500]%Z /\
  (status (generate_xmls cfg fs req) = 200%Z <->
   exists mt dn z, generate_xmls cfg fs req = RFile mt dn z).
Proof.
  intros cfg fs req. apply status_of_aborts. intros code d H.
  unfold generate_xmls in H.
  destruct (files_quiz_json req) as [u|]; [|injection H as <- _; left; reflexivity].
  destruct (strip (form_get_base_name req)); [injection H as <- _; left; reflexivity|].
  destruct u as [data|err]; [|injection H as <- _; left; reflexivity].
  destruct (fs (XML_TEMPLATE_PATH cfg)) as [xml| |];
    [|injection H as <- _; right; reflexivity|discriminate].
  destruct (fs (META_BLOCK_PATH cfg)) as [meta| |];
    [|injection H as <- _; right; reflexivity|discriminate].
  unfold package_response in H.
  destruct (bind _ _); discriminate.
Qed.

(** All or nothing: when [generate_xmls] sends an archive, every quiz record
    was filled, and the archive holds exactly the filled documents, one per
    record, in order (whatever the base name). *)
Theorem generate_xmls_all_records : forall cfg fs req mt dn zipf,
  generate_xmls cfg fs req = RFile mt dn zipf ->
  exists data xml meta v quizzes fulls,
    files_quiz_json req = Some (UJson data) /\
    fs (XML_TEMPLATE_PATH cfg) = FContent xml /\
    fs (META_BLOCK_PATH cfg) = FContent meta /\
    py_dict_get data (s2l "quizzes") (JArr []) = Ok v /\
    py_iter v = Ok quizzes /\
    Forall2 (fun quiz full => fill_quiz xml meta quiz = Ok full) quizzes fulls /\
    map snd zipf = fulls.
Proof.
  intros cfg fs req mt dn zipf H.
  destruct (generate_xmls_RFile_pack _ _ _ _ _ _ H)
    as (data & xml & meta & v & quizzes & Hf & Hx & Hm & Hv & Hi & Hp).
  destruct (pack_Ok _ _ _ _ _ _ _ Hp) as [fulls [HF Hz]].
  exists data, xml, meta, v, quizzes, fulls. repeat (split; [assumption|]).
  rewrite Hz. cbn [app]. apply map_snd_combine'.
  rewrite length_map, length_seq. exact (Forall2_length HF).
Qed.

Lemma generate_xmls_all_records_witness :
  map snd (match generate_xmls default_config
                   (fs_templates (s2l "<t>{{TITLE}}</t>") (s2l "{{ID}}"))
                   (post data_two (s2l "q")) with
           | RFile _ _ z => z | _ => [] end)
  = [s2l "<t>TITLE</t>1"; s2l "<t>TITLE</t>1"].
Proof.
  assert (H : generate_xmls default_config
                (fs_templates (s2l "<t>{{TITLE}}</t>") (s2l "{{ID}}")) (post data_two (s2l "q"))
              = RFile (s2l "application/zip") (s2l "q_xmls.zip")
                  [(s2l "q_1.xml", s2l "<t>TITLE</t>1"); (s2l "q_2.xml", s2l "<t>TITLE</t>1")])
    by (vm_compute; reflexivity).
  rewrite H.
  destruct (generate_xmls_all_records _ _ _ _ _ _ H)
    as (d & x & m & v & qs & fulls & Hf & Hx & Hm & Hv & Hi & HF & Hz).
  rewrite Hz. injection Hf as <-. injection Hv as <-. injection Hi as <-.
  injection Hx as <-. injection Hm as <-.
  inversion HF as [|q1 f1 l1 l1' H1 HF1 E1 E2]; subst.
  inversion HF1 as [|q2 f2 l2 l2' H2 HF2 E3 E4]; subst.
  inversion HF2; subst.
  vm_compute in H1, H2. injection H1 as <-. injection H2 as <-. reflexivity.
Defined.

(** With a base name free of NUL characters, the entries of an archive
    sent by [generate_xmls] have pairwise distinct names. *)
Theorem generate_xmls_names_distinct : forall cfg fs req mt dn zipf,
  generate_xmls cfg fs req = RFile mt dn zipf ->
  ~ In 0%Z (strip (form_get_base_name req)) ->
  NoDup (map fst zipf).
Proof.
  intros cfg fs req mt dn zipf H Hn.
  destruct (generate_xmls_RFile_pack _ _ _ _ _ _ H)
    as (data & xml & meta & v & quizzes & _ & _ & _ & _ & _ & Hp).
  destruct (pack_Ok _ _ _ _ _ _ _ Hp) as [fulls [HF Hz]].
  rewrite Hz. cbn [app]. rewrite map_fst_combine'
    by (rewrite length_map, length_seq; exact (Forall2_length HF)).
  apply NoDup_map_NoDup_ForallPairs; [|apply seq_NoDup].
  intros a b _ _ E.
  rewrite !until_nul_id in E by (apply file_name_no_nul; exact Hn).
  apply file_name_inj in E. lia.
Qed.

Lemma generate_xmls_names_distinct_witness :
  NoDup (map fst (match generate_xmls default_config (fs_templates [] [])
                          (post data_two (s2l "q")) with
                  | RFile _ _ z => z | _ => [] end)).
Proof.
  assert (H : generate_xmls default_config (fs_templates [] []) (post data_two (s2l "q"))
              = RFile (s2l "application/zip") (s2l "q_xmls.zip")
                  [(s2l "q_1.xml", []); (s2l "q_2.xml", [])])
    by (vm_compute; reflexivity).
  rewrite H. apply (generate_xmls_names_distinct _ _ _ _ _ _ H).
  vm_compute. intros [E|[]]. discriminate.
Defined.

(** With a NUL character in the base name, every entry of an archive sent
    by [generate_xmls] bears the same name: the base name up to its first
    NUL. *)
Theorem generate_xmls_nul_names : forall cfg fs req mt dn zipf,
  generate_xmls cfg fs req = RFile mt dn zipf ->
  In 0%Z (strip (form_get_base_name req)) ->
  Forall (fun e => fst e = until_nul (strip (form_get_base_name req))) zipf.
Proof.
  intros cfg fs req mt dn zipf H Hn.
  destruct (generate_xmls_RFile_pack _ _ _ _ _ _ H)
    as (data & xml & meta & v & quizzes & _ & _ & _ & _ & _ & Hp).
  destruct (pack_Ok _ _ _ _ _ _ _ Hp) as [fulls [HF Hz]].
  rewrite Hz. cbn [app]. apply Forall_forall. intros [name full] Hin.
  apply (in_map fst) in Hin. cbn [fst] in *.
  rewrite map_fst_combine' in Hin
    by (rewrite length_map, length_seq; exact (Forall2_length HF)).
  apply in_map_iff in Hin as [j [<- _]].
  apply until_nul_app_nul. exact Hn.
Qed.

Lemma generate_xmls_nul_names_witness :
  Forall (fun e => fst e = s2l "a")
    (match generate_xmls default_config (fs_templates [] []) (post data_two base_nul) with
     | RFile _ _ z => z | _ => [] end).
Proof.
  assert (H : generate_xmls default_config (fs_templates [] []) (post data_two base_nul)
              = RFile (s2l "application/zip") (base_nul ++ s2l "_xmls.zip")
                  [(s2l "a", []); (s2l "a", [])])
    by (vm_compute; reflexivity).
  rewrite H. exact (generate_xmls_nul_names _ _ _ _ _ _ H ltac:(right; left; reflexivity)).
Defined.

(** [base_name.strip()] removes whitespace only, and only at the ends: the
    submitted value is the stripped one between two runs of whitespace. *)
Theorem strip_infix : forall b,
  exists p q, b = p ++ strip b ++ q /\
              forallb py_isspace p = true /\ forallb py_isspace q = true.
Proof.
  intros b. destruct (lstrip_split b) as [p [Hp Hw]].
  destruct (lstrip_split (rev (lstrip b))) as [p2 [Hp2 Hw2]].
  exists p, (rev p2). split; [|split; [exact Hw|rewrite forallb_rev; exact Hw2]].
  unfold strip. rewrite Hp at 1. f_equal.
  apply (f_equal (@rev Z)) in Hp2. rewrite rev_involutive, rev_app_distr in Hp2.
  exact Hp2.
Qed.
